(** * tk_data_cleaner: the file reader, the column list and the export handler

    A shallow embedding of [app.py]: the delimited-text reader
    [tentar_leitura_csv_variavel_sep], the Tk listbox that holds the curated
    column selection, and the handlers of [UnifiedApp].

    Library code that [app.py] calls ([pandas.read_csv], [pandas.read_excel],
    [int], [os.path.splitext], [str.lower]) and the three cleaning functions
    of [logic.py] are parameters of the model: every theorem holds whatever
    they compute.  Objects that Python shares by reference (data frames) live
    in an explicit object store. *)

From Stdlib Require Import ZArith Ascii String.
From stdpp Require Import base tactics option list strings gmap pretty.

Open Scope string_scope.
Open Scope list_scope.
Open Scope nat_scope.

(** ** Values, data frames, exceptions *)

(** A cell of a table: text, a number, or the missing marker (NaN). *)
Inductive scalar :=
| Text (s : string)
| Number (z : Z)
| Missing.

(** A [pandas.DataFrame]: the ordered column labels, and the rows in order,
    each row mapping a column label to its cell. *)
Record DataFrame := {
  columns : list string;
  rows : list (gmap string scalar)
}.

(** The exception classes the handlers tell apart; [Exception] stands for the
    base class and for every subclass not listed. *)
Inductive exception :=
| UnicodeDecodeError (msg : string)
| ValueError (msg : string)
| KeyError (msg : string)
| Exception (msg : string).

(** The outcome of a call that may raise. *)
Inductive result (A : Type) :=
| Returned (a : A)
| Raised (e : exception).
Arguments Returned {A} a.
Arguments Raised {A} e.

Definition tab : string := String "009"%char EmptyString.
Definition newline : string := String "010"%char EmptyString.
Definition double_quote : string := String "034"%char EmptyString.

(** ** The delimited-text reader *)

(** The keyword arguments of a [pd.read_csv] call. *)
Record read_csv_kwargs := {
  sep : string;
  quotechar : string;
  encoding : string;
  on_bad_lines : string
}.

(** The keyword arguments the reader passes for a delimiter and an encoding:
    the delimiter, the double quote as quote character, the encoding, and
    the skip policy for bad lines. *)
Definition kwargs (sep encoding : string) : read_csv_kwargs :=
  {| sep := sep; quotechar := double_quote; encoding := encoding;
     on_bad_lines := "skip" |}.

Definition sep_list : list string := [";"; ","; tab].

Definition unreadable_msg : string :=
  "Não foi possível ler o arquivo com os separadores padrão".

Section Reader.

(** [pd.read_csv], applied to a path and keyword arguments. *)
Variable read_csv : string → read_csv_kwargs → result DataFrame.

(** The [for sep in sep_list] loop of [tentar_leitura_csv_variavel_sep].  The
    first component lists the [read_csv] calls made, in order. *)
Fixpoint tentar_leitura_seps (caminho_arquivo : string) (seps : list string)
  : list read_csv_kwargs * result DataFrame :=
  match seps with
  | [] => ([], Raised (Exception unreadable_msg))
  | sep :: seps' =>
    match read_csv caminho_arquivo (kwargs sep "utf-8") with
    | Returned d => ([kwargs sep "utf-8"], Returned d)
    | Raised (UnicodeDecodeError _) =>
      match read_csv caminho_arquivo (kwargs sep "latin1") with
      | Returned d => ([kwargs sep "utf-8"; kwargs sep "latin1"], Returned d)
      | Raised _ =>
        let '(calls, r) := tentar_leitura_seps caminho_arquivo seps' in
        (kwargs sep "utf-8" :: kwargs sep "latin1" :: calls, r)
      end
    | Raised _ =>
      let '(calls, r) := tentar_leitura_seps caminho_arquivo seps' in
      (kwargs sep "utf-8" :: calls, r)
    end
  end.

Definition tentar_leitura_trace (caminho_arquivo : string)
  : list read_csv_kwargs * result DataFrame :=
  tentar_leitura_seps caminho_arquivo sep_list.

Definition tentar_leitura_csv_variavel_sep (caminho_arquivo : string)
  : result DataFrame :=
  (tentar_leitura_trace caminho_arquivo).2.

(** *** The retry table of the specification *)

(** The candidate (delimiter, encoding) combinations in priority order. *)
Definition candidates_of (seps : list string) : list (string * string) :=
  s ← seps; [(s, "utf-8"); (s, "latin1")].

Definition candidates : list (string * string) := candidates_of sep_list.

(** The data set of the first combination of [cands] that parses. *)
Fixpoint first_parsing (caminho_arquivo : string) (cands : list (string * string))
  : option DataFrame :=
  match cands with
  | [] => None
  | (s, enc) :: cands' =>
    match read_csv caminho_arquivo (kwargs s enc) with
    | Returned d => Some d
    | Raised _ => first_parsing caminho_arquivo cands'
    end
  end.

(** The reader as the specification words it: the candidates are tried in
    sequence, with early return on the first success. *)
Definition read_by_table (caminho_arquivo : string) : result DataFrame :=
  match first_parsing caminho_arquivo candidates with
  | Some d => Returned d
  | None => Raised (Exception unreadable_msg)
  end.

(** A combination the code can reach: every "utf-8" one, and a "latin1" one
    only when "utf-8" raised a decoding error for the same delimiter. *)
Definition eligible (caminho_arquivo : string) (c : string * string) : bool :=
  if decide (c.2 = "utf-8") then true
  else match read_csv caminho_arquivo (kwargs c.1 "utf-8") with
       | Raised (UnicodeDecodeError _) => true
       | _ => false
       end.

(** The calls made while walking [cands] up to and including the first one
    that parses. *)
Fixpoint calls_until_parse (caminho_arquivo : string) (cands : list (string * string))
  : list read_csv_kwargs :=
  match cands with
  | [] => []
  | (s, enc) :: cands' =>
    match read_csv caminho_arquivo (kwargs s enc) with
    | Returned _ => [kwargs s enc]
    | Raised _ => kwargs s enc :: calls_until_parse caminho_arquivo cands'
    end
  end.

(** A delimiter for which the code obtains no data set. *)
Definition sep_fails (caminho_arquivo : string) (s : string) : Prop :=
  match read_csv caminho_arquivo (kwargs s "utf-8") with
  | Returned _ => False
  | Raised (UnicodeDecodeError _) =>
    match read_csv caminho_arquivo (kwargs s "latin1") with
    | Returned _ => False
    | Raised _ => True
    end
  | Raised _ => True
  end.

End Reader.

(** ** The line policy of the parser *)

Section Parser.

(** The tokenizer of [pd.read_csv]: it decodes the file in the given encoding
    and splits it, at the delimiter and the quote character, into the header
    and the records; it raises when the bytes do not decode or the text does
    not tokenize.  Arguments: path, delimiter, quote character, encoding. *)
Variable tokenize :
  string → string → string → string → result (list string * list (list scalar)).

(** A record is well formed when it has one field per header column. *)
Definition well_formed (header : list string) (record : list scalar) : bool :=
  bool_decide (length record = length header).

Definition frame_of (header : list string) (records : list (list scalar)) : DataFrame :=
  {| columns := header;
     rows := (λ record, list_to_map (zip header record)) <$> records |}.

(** Modelled from the spec: [pandas.read_csv] is library code that is not in
    the repository; section 4.1 says of it that malformed individual lines
    (wrong field count) are skipped rather than aborting the whole read.
    That is the behaviour under the skip policy for bad lines; under any
    other policy a malformed line aborts the read. *)
Definition pandas_read_csv (caminho_arquivo : string) (kw : read_csv_kwargs)
  : result DataFrame :=
  match tokenize caminho_arquivo (sep kw) (quotechar kw) (encoding kw) with
  | Raised e => Raised e
  | Returned (header, records) =>
    if decide (on_bad_lines kw = "skip")
    then Returned (frame_of header (filter (λ r, well_formed header r = true) records))
    else if forallb (well_formed header) records
         then Returned (frame_of header records)
         else Raised (Exception "Error tokenizing data")
  end.

End Parser.

(** ** The listbox of the curated column selection *)

(** A [tk.Listbox]: its entries in order, each with its selection flag. *)
Abbreviation Listbox := (list (string * bool)).

Definition lb_size (lb : Listbox) : nat := length lb.

(** [get(index)]: the entry, or the empty string out of range. *)
Definition lb_get (lb : Listbox) (index : nat) : string :=
  default "" (fst <$> lb !! index).

(** [get(0, tk.END)]: all the entries. *)
Definition lb_get_all (lb : Listbox) : list string := fst <$> lb.

(** [delete(first, last)]: removes the entries [first] to [last], both
    included; nothing when [last] is before [first]. *)
Definition lb_delete (first last : nat) (lb : Listbox) : Listbox :=
  if decide (first ≤ last) then take first lb ++ drop (S last) lb else lb.

(** [insert(index, element)]: the new entry goes before [index], at the end
    when [index] is past it, and is not selected. *)
Definition lb_insert (index : nat) (element : string) (lb : Listbox) : Listbox :=
  take index lb ++ (element, false) :: drop index lb.

Definition lb_set_flag (b : bool) (index : nat) (lb : Listbox) : Listbox :=
  alter (λ e, (e.1, b)) index lb.

(** [selection_set(index)] and [selection_clear(index)]. *)
Definition lb_selection_set : nat → Listbox → Listbox := lb_set_flag true.
Definition lb_selection_clear : nat → Listbox → Listbox := lb_set_flag false.

Fixpoint curselection_from (i : nat) (lb : Listbox) : list nat :=
  match lb with
  | [] => []
  | (_, selected) :: lb' =>
    if selected then i :: curselection_from (S i) lb'
    else curselection_from (S i) lb'
  end.

(** [curselection()]: the indices of the selected entries, ascending. *)
Definition lb_curselection (lb : Listbox) : list nat := curselection_from 0 lb.

(** One iteration of the loop of [mover_cima]. *)
Definition mover_cima_step (lb : Listbox) (index : nat) : Listbox :=
  if decide (index = 0) then lb
  else
    let texto := lb_get lb index in
    let acima := lb_get lb (index - 1) in
    let lb1 := lb_delete (index - 1) index lb in
    let lb2 := lb_insert (index - 1) texto lb1 in
    let lb3 := lb_insert index acima lb2 in
    let lb4 := lb_selection_set (index - 1) lb3 in
    lb_selection_clear index lb4.

Definition mover_cima (lb : Listbox) : Listbox :=
  let selecionados := lb_curselection lb in
  foldl mover_cima_step lb selecionados.

(** One iteration of the loop of [mover_baixo]; [count] is the size read
    before the loop. *)
Definition mover_baixo_step (count : nat) (lb : Listbox) (index : nat) : Listbox :=
  if decide (Z.of_nat index = Z.of_nat count - 1)%Z then lb
  else
    let texto := lb_get lb index in
    let abaixo := lb_get lb (index + 1) in
    let lb1 := lb_delete index (index + 1) lb in
    let lb2 := lb_insert index abaixo lb1 in
    let lb3 := lb_insert (index + 1) texto lb2 in
    let lb4 := lb_selection_set (index + 1) lb3 in
    lb_selection_clear index lb4.

Definition mover_baixo (lb : Listbox) : Listbox :=
  let selecionados := lb_curselection lb in
  let count := lb_size lb in
  foldl (mover_baixo_step count) lb (reverse selecionados).

Definition remover_colunas (lb : Listbox) : Listbox :=
  let selecionados := lb_curselection lb in
  foldl (λ lb index, lb_delete index index lb) lb (reverse selecionados).

(** [_carregar_colunas]: empties the listbox, then appends each column. *)
Definition _carregar_colunas (lb : Listbox) (colunas : list string) : Listbox :=
  foldl (λ lb col, lb_insert (lb_size lb) col lb) (lb_delete 0 (lb_size lb) lb) colunas.

(** The validity of a column selection over the columns of the loaded data
    set: no entry twice, every entry a column. *)
Definition valid_selection (cols : list string) (lb : Listbox) : Prop :=
  NoDup (lb_get_all lb) ∧ lb_get_all lb ⊆ cols.

(** ** The application *)

(** The object store: data frames are Python objects held by reference; a
    reference is an index into the store, and allocation appends. *)
Abbreviation Store := (list DataFrame).

#[global] Instance DataFrame_inhabited : Inhabited DataFrame :=
  populate {| columns := []; rows := [] |}.

(** The fields of [UnifiedApp] and of its widgets that the handlers read or
    write.  [df] is [None] or a reference into the store. *)
Record UnifiedApp := {
  df : option nat;
  total_espacos_removidos : nat;
  linhas_removidas_por_tamanho : nat;
  total_duplicatas_removidas : nat;
  listbox_colunas : Listbox;
  spin_min_len : string;
  label_resultado : string;
  icone_info_packed : bool;
  tooltip_texto : string
}.

(** What a handler does to the outside, in order. *)
Inductive event :=
| showwarning (title message : string)
| showerror (title message : string)
| showinfo (title message : string)
| called_read_excel (caminho : string)
| called_read_csv (caminho : string) (kw : read_csv_kwargs)
| called_limpar_espacos_em_colunas (d : DataFrame) (colunas : list string)
| called_filtrar_primeira_coluna_por_tamanho (d : DataFrame) (coluna : string) (min_len : Z)
| called_remover_duplicatas (d : DataFrame) (coluna : string)
| called_to_csv (d : DataFrame) (caminho sep : string) (index : bool) (encoding : string)
| file_written (caminho content : string)
| uncaught (e : exception).

Record World := {
  app : UnifiedApp;
  store : Store;
  events : list event
}.

(** [str(e)] of an exception. *)
Definition exc_str (e : exception) : string :=
  match e with
  | UnicodeDecodeError m | ValueError m | KeyError m | Exception m => m
  end.

(** What a call of a cleaning function of [logic.py] does: the state in which
    it leaves the frame it was given, the frame it returns ([None] when it
    returns the very object it was given), and the count it returns.  The
    function receives no other reference, so it can touch no other object. *)
Record stage_outcome := {
  argument_after : DataFrame;
  returned_new : option DataFrame;
  affected : nat
}.

(** The effect of such a call on the store, and the reference returned. *)
Definition call_stage (o : stage_outcome) (st : Store) (l : nat) : Store * nat :=
  let st' := <[l := argument_after o]> st in
  match returned_new o with
  | None => (st', l)
  | Some d => (st' ++ [d], length st')
  end.

(** The frame such a call returns. *)
Definition stage_value (o : stage_outcome) : DataFrame :=
  default (argument_after o) (returned_new o).

Definition is_cleaning_call (e : event) : bool :=
  match e with
  | called_limpar_espacos_em_colunas _ _
  | called_filtrar_primeira_coluna_por_tamanho _ _ _
  | called_remover_duplicatas _ _ => true
  | _ => false
  end.

(** The cleaning calls among some events. *)
Definition cleaning_calls (evs : list event) : list event :=
  filter (λ e, is_cleaning_call e = true) evs.

(** [d[cols]] for a list of labels: the columns [cols] in that order, or
    [KeyError] when a label is not a column. *)
Definition getitem (d : DataFrame) (cols : list string) : result DataFrame :=
  if decide (cols ⊆ columns d)
  then Returned {| columns := cols;
                   rows := (λ r, filter (λ kv, kv.1 ∈ cols) r) <$> rows d |}
  else Raised (KeyError "not in index").

(** *** Writing the file *)

Definition str_scalar (v : scalar) : string :=
  match v with
  | Text s => s
  | Number z => pretty z
  | Missing => ""
  end.

(** The fields of a row, one per column of [cols], in that order. *)
Definition row_fields (cols : list string) (r : gmap string scalar) : list string :=
  (λ c, str_scalar (default Missing (r !! c))) <$> cols.

(** The byte-order mark, in UTF-8. *)
Definition bom : string :=
  String "239"%char (String "187"%char (String "191"%char EmptyString)).

Fixpoint index_rows (i : nat) (cols : list string) (rs : list (gmap string scalar))
  : list (list string) :=
  match rs with
  | [] => []
  | r :: rs' => (pretty i :: row_fields cols r) :: index_rows (S i) cols rs'
  end.

(** The lines [to_csv] writes: the header, then one line per row. *)
Definition csv_lines (d : DataFrame) (sep : string) (index : bool) : list string :=
  String.concat sep <$>
    (if index then ("" :: columns d) :: index_rows 0 (columns d) (rows d)
     else columns d :: (row_fields (columns d) <$> rows d)).

(** Modelled from the spec: [DataFrame.to_csv] is library code that is not in
    the repository; section 4.5 says that it emits one header line (the
    columns, in order, joined by the delimiter) followed by one line per row,
    fields joined by the delimiter, and section 6 that the text is UTF-8
    with a byte-order mark.  [linesep] ends each line. *)
Definition to_csv (linesep : string) (d : DataFrame) (sep : string) (index : bool)
    (encoding : string) : string :=
  ((if decide (encoding = "utf-8-sig") then bom else "")
   ++ String.concat "" ((λ line, line ++ linesep) <$> csv_lines d sep index))%string.

(** The file the specification asks for: the byte-order mark, the header
    line of the selection joined by semicolons, then one line per row with
    the cells of the selection in its order. *)
Definition expected_file (linesep : string) (colunas : list string)
    (rs : list (gmap string scalar)) : string :=
  (bom ++ String.concat ";" colunas ++ linesep
   ++ String.concat "" ((λ r, String.concat ";" (row_fields colunas r) ++ linesep) <$> rs))%string.

Section App.

(** Library functions: [pd.read_csv], [pd.read_excel], [os.path.splitext],
    [str.lower], [int] on a string ([None] for [ValueError]) and
    [os.linesep]. *)
Variable read_csv : string → read_csv_kwargs → result DataFrame.
Variable read_excel : string → result DataFrame.
Variable splitext : string → string * string.
Variable lower : string → string.
Variable int : string → option Z.
Variable linesep : string.

(** The cleaning functions of [logic.py]. *)
Variable limpar_espacos_em_colunas : DataFrame → list string → stage_outcome.
Variable filtrar_primeira_coluna_por_tamanho : DataFrame → string → Z → stage_outcome.
Variable remover_duplicatas : DataFrame → string → stage_outcome.

Definition _atualizar_tooltip (a : UnifiedApp) : UnifiedApp :=
  let texto_base := "Limpeza de dados:" in
  let texto_espacos :=
    (newline ++ "Espaçamentos removidos: " ++ pretty (total_espacos_removidos a))%string in
  let texto_tamanho :=
    (newline ++ "Linhas removidas (menores que " ++ spin_min_len a ++ " digitos): "
     ++ pretty (linhas_removidas_por_tamanho a))%string in
  let texto_duplicatas :=
    (newline ++ "Duplicatas removidas: " ++ pretty (total_duplicatas_removidas a))%string in
  {| df := df a;
     total_espacos_removidos := total_espacos_removidos a;
     linhas_removidas_por_tamanho := linhas_removidas_por_tamanho a;
     total_duplicatas_removidas := total_duplicatas_removidas a;
     listbox_colunas := listbox_colunas a;
     spin_min_len := spin_min_len a;
     label_resultado := label_resultado a;
     icone_info_packed := icone_info_packed a;
     tooltip_texto := (texto_base ++ texto_espacos ++ texto_tamanho ++ texto_duplicatas)%string |}.

(** The [try] body of [selecionar_arquivo] up to the assignment of
    [self.df]: the reads made and the frame read. *)
Definition ler_arquivo (caminho_arquivo : string) : list event * result DataFrame :=
  let ext := lower (splitext caminho_arquivo).2 in
  if decide (ext ∈ [".xls"; ".xlsx"])
  then ([called_read_excel caminho_arquivo], read_excel caminho_arquivo)
  else if decide (ext ∈ [".csv"; ".txt"])
  then (called_read_csv caminho_arquivo <$> (tentar_leitura_trace read_csv caminho_arquivo).1,
        tentar_leitura_csv_variavel_sep read_csv caminho_arquivo)
  else ([], Raised (Exception "Tipo de arquivo não suportado.")).

(** [selecionar_arquivo]; [caminho_arquivo] is what the file dialog returned,
    the empty string when it was cancelled. *)
Definition selecionar_arquivo (w : World) (caminho_arquivo : string) : World :=
  let a := app w in
  if decide (caminho_arquivo = "") then
    {| app := {| df := df a;
                 total_espacos_removidos := total_espacos_removidos a;
                 linhas_removidas_por_tamanho := linhas_removidas_por_tamanho a;
                 total_duplicatas_removidas := total_duplicatas_removidas a;
                 listbox_colunas := listbox_colunas a;
                 spin_min_len := spin_min_len a;
                 label_resultado := "Nenhum arquivo selecionado.";
                 icone_info_packed := false;
                 tooltip_texto := tooltip_texto a |};
       store := store w;
       events := events w |}
  else
    match ler_arquivo caminho_arquivo with
    | (reads, Returned d) =>
      let l := length (store w) in
      let st := store w ++ [d] in
      {| app := _atualizar_tooltip
                  {| df := Some l;
                     total_espacos_removidos := 0;
                     linhas_removidas_por_tamanho := 0;
                     total_duplicatas_removidas := 0;
                     listbox_colunas :=
                       _carregar_colunas (listbox_colunas a) (columns (st !!! l));
                     spin_min_len := spin_min_len a;
                     label_resultado := ("Arquivo carregado: " ++ caminho_arquivo)%string;
                     icone_info_packed := true;
                     tooltip_texto := tooltip_texto a |};
         store := st;
         events := events w ++ reads |}
    | (reads, Raised e) =>
      {| app := a;
         store := store w;
         events := events w ++ reads ++
           [showerror "Erro" ("Falha ao ler o arquivo:" ++ newline ++ exc_str e)%string] |}
    end.

Definition aviso (w : World) (message : string) : World :=
  {| app := app w; store := store w;
     events := events w ++ [showwarning "Aviso" message] |}.

(** The three cleaning calls of [gerar_txt] and the tooltip update, from the
    store [st] in which [l_copy] refers to the copy of the selected columns. *)
Definition limpar_pipeline (a : UnifiedApp) (st : Store) (l_copy : nat)
    (colunas_selecionadas : list string) (primeira_col : string) (min_len : Z)
  : UnifiedApp * Store * nat * list event :=
  let o1 := limpar_espacos_em_colunas (st !!! l_copy) colunas_selecionadas in
  let st1 := (call_stage o1 st l_copy).1 in
  let l1 := (call_stage o1 st l_copy).2 in
  let o2 := filtrar_primeira_coluna_por_tamanho (st1 !!! l1) primeira_col min_len in
  let st2 := (call_stage o2 st1 l1).1 in
  let l2 := (call_stage o2 st1 l1).2 in
  let o3 := remover_duplicatas (st2 !!! l2) primeira_col in
  let st3 := (call_stage o3 st2 l2).1 in
  let l3 := (call_stage o3 st2 l2).2 in
  (_atualizar_tooltip
     {| df := df a;
        total_espacos_removidos := affected o1;
        linhas_removidas_por_tamanho := affected o2;
        total_duplicatas_removidas := affected o3;
        listbox_colunas := listbox_colunas a;
        spin_min_len := spin_min_len a;
        label_resultado := label_resultado a;
        icone_info_packed := icone_info_packed a;
        tooltip_texto := tooltip_texto a |},
   st3, l3,
   [called_limpar_espacos_em_colunas (st !!! l_copy) colunas_selecionadas;
    called_filtrar_primeira_coluna_por_tamanho (st1 !!! l1) primeira_col min_len;
    called_remover_duplicatas (st2 !!! l2) primeira_col]).

(** The end of [gerar_txt]: the save dialog and the write.  [write_error] is
    the exception of the write, if it fails. *)
Definition salvar (a : UnifiedApp) (st : Store) (l : nat) (evs : list event)
    (caminho_save : string) (write_error : option exception) : World :=
  if decide (caminho_save = "") then {| app := a; store := st; events := evs |}
  else
    let call := called_to_csv (st !!! l) caminho_save ";" false "utf-8-sig" in
    match write_error with
    | None =>
      {| app := a; store := st;
         events := evs ++
           [call;
            file_written caminho_save (to_csv linesep (st !!! l) ";" false "utf-8-sig");
            showinfo "Sucesso"
              ("Arquivo salvo em:" ++ newline ++ caminho_save ++ newline
               ++ "Linhas removidas por tamanho: "
               ++ pretty (linhas_removidas_por_tamanho a))%string] |}
    | Some e =>
      {| app := a; store := st;
         events := evs ++
           [call;
            showerror "Erro" ("Falha ao salvar o arquivo:" ++ newline ++ exc_str e)%string] |}
    end.

(** [gerar_txt]; [caminho_save] is what the save dialog returns, the empty
    string when it is cancelled. *)
Definition gerar_txt (w : World) (caminho_save : string)
    (write_error : option exception) : World :=
  let a := app w in
  match df a with
  | None => aviso w "Nenhum arquivo carregado."
  | Some l_df =>
    let colunas_selecionadas := lb_get_all (listbox_colunas a) in
    match colunas_selecionadas with
    | [] => aviso w "Selecione pelo menos uma coluna."
    | primeira_col :: _ =>
      match int (spin_min_len a) with
      | None => aviso w "Digite um número inteiro válido para o mínimo de caracteres."
      | Some min_len =>
        if decide (min_len < 1)%Z
        then aviso w "Digite um número inteiro válido para o mínimo de caracteres."
        else
          match getitem (store w !!! l_df) colunas_selecionadas with
          | Raised e =>
            {| app := a; store := store w; events := events w ++ [uncaught e] |}
          | Returned selected =>
            let st1 := store w ++ [selected] in
            let l_selected := length (store w) in
            let st2 := st1 ++ [st1 !!! l_selected] in
            let l_copy := length st1 in
            let '(a', st', l', calls) :=
              limpar_pipeline a st2 l_copy colunas_selecionadas primeira_col min_len in
            salvar a' st' l' (events w ++ calls) caminho_save write_error
          end
      end
    end
  end.

End App.

(** What the user can do to the listbox between a load and an export: click
    (which sets the selection to some set of indices) and the three
    buttons. *)
Inductive listbox_action :=
| Click (selection : list nat)
| MoverCima
| MoverBaixo
| RemoverColunas.

Definition lb_click (selection : list nat) (lb : Listbox) : Listbox :=
  imap (λ i e, (e.1, bool_decide (i ∈ selection))) lb.

Definition listbox_act (lb : Listbox) (act : listbox_action) : Listbox :=
  match act with
  | Click selection => lb_click selection lb
  | MoverCima => mover_cima lb
  | MoverBaixo => mover_baixo lb
  | RemoverColunas => remover_colunas lb
  end.

(** ** The cleaning functions and the library functions, as instances *)

#[global] Instance scalar_eq_dec : EqDecision scalar.
Proof. solve_decision. Defined.

Module Logic.

(** The white space of [str.split]. *)
Definition is_space (c : ascii) : bool :=
  bool_decide (nat_of_ascii c ∈ [32; 9; 10; 11; 12; 13]).

(** The words of a text: its maximal runs without white space.  [cur] is the
    word being read, reversed. *)
Fixpoint words_from (cur : list ascii) (s : string) : list string :=
  match s with
  | EmptyString =>
    match cur with [] => [] | _ => [string_of_list_ascii (reverse cur)] end
  | String c s' =>
    if is_space c
    then match cur with
         | [] => words_from [] s'
         | _ => string_of_list_ascii (reverse cur) :: words_from [] s'
         end
    else words_from (c :: cur) s'
  end.

(** Leading and trailing white space stripped, inner runs collapsed to one
    space. *)
Definition normalize_text (s : string) : string :=
  String.concat " " (words_from [] s).

Definition normalize_cell (v : scalar) : scalar :=
  match v with
  | Text s => Text (normalize_text s)
  | _ => v
  end.

Definition normalize_row (cols : list string) (r : gmap string scalar)
  : gmap string scalar :=
  foldr (λ c r', alter normalize_cell c r') r cols.

Definition changed_cells (cols : list string) (r : gmap string scalar) : nat :=
  length (filter (λ c, normalize_cell <$> r !! c ≠ r !! c) cols).

(** Modelled from the spec: [logic.py] is not among the sources; section 4.2
    says that for every row and every column in [cols] a text cell is
    stripped of leading and trailing white space and its inner runs of white
    space are collapsed to a single space, that other cells pass through
    unchanged, and that the count is of the cells whose value changed.  The
    frame given is left as it is and a new one is returned. *)
Definition limpar_espacos_em_colunas (d : DataFrame) (cols : list string)
  : stage_outcome :=
  {| argument_after := d;
     returned_new :=
       Some {| columns := columns d; rows := normalize_row cols <$> rows d |};
     affected := sum_list (changed_cells cols <$> rows d) |}.

(** The number of characters of a UTF-8 text: the bytes that do not continue
    a character. *)
Definition char_length (s : string) : nat :=
  length (filter (λ c, ¬ (128 ≤ nat_of_ascii c < 192)) (list_ascii_of_string s)).

Definition key_length (key : string) (r : gmap string scalar) : Z :=
  Z.of_nat (char_length (str_scalar (default Missing (r !! key)))).

(** Modelled from the spec: [logic.py] is not among the sources; section 4.3
    says that a row is dropped when the character length of the text of its
    key cell, 0 for a missing one, is below [min_len], that the kept rows
    keep their order, and that the count is of the dropped rows. *)
Definition filtrar_primeira_coluna_por_tamanho (d : DataFrame) (key : string)
    (min_len : Z) : stage_outcome :=
  let kept := filter (λ r, (min_len ≤ key_length key r)%Z) (rows d) in
  {| argument_after := d;
     returned_new := Some {| columns := columns d; rows := kept |};
     affected := length (rows d) - length kept |}.

(** The rows whose key value is not in [seen] and not an earlier row's. *)
Fixpoint first_occurrences (key : string) (seen : list (option scalar))
    (rs : list (gmap string scalar)) : list (gmap string scalar) :=
  match rs with
  | [] => []
  | r :: rs' =>
    if decide (r !! key ∈ seen) then first_occurrences key seen rs'
    else r :: first_occurrences key (r !! key :: seen) rs'
  end.

(** Modelled from the spec: [logic.py] is not among the sources; section 4.4
    says that a row is kept only if its key value has not been seen before
    in the scan, by exact comparison, that the kept rows keep their order,
    and that the count is of the dropped rows. *)
Definition remover_duplicatas (d : DataFrame) (key : string) : stage_outcome :=
  let kept := first_occurrences key [] (rows d) in
  {| argument_after := d;
     returned_new := Some {| columns := columns d; rows := kept |};
     affected := length (rows d) - length kept |}.

End Logic.

Module Lib.

Definition digit_value (c : ascii) : option Z :=
  let n := nat_of_ascii c in
  if decide (48 ≤ n ≤ 57) then Some (Z.of_nat (n - 48)) else None.

Fixpoint digits_value (acc : Z) (s : string) : option Z :=
  match s with
  | EmptyString => Some acc
  | String c s' =>
    match digit_value c with
    | Some v => digits_value (10 * acc + v)%Z s'
    | None => None
    end
  end.

(** [int] on a text of decimal digits with an optional sign; [None] stands
    for [ValueError].  Surrounding white space and digit-group underscores,
    which Python accepts too, are not covered. *)
Definition int (s : string) : option Z :=
  match s with
  | EmptyString => None
  | String "-" (String _ _ as s') => Z.opp <$> digits_value 0 s'
  | String "+" (String _ _ as s') => digits_value 0 s'
  | _ => digits_value 0 s
  end.

(** The text from the last dot on, when there is one. *)
Fixpoint split_last_dot (s : string) : option (string * string) :=
  match s with
  | EmptyString => None
  | String c s' =>
    match split_last_dot s' with
    | Some (root, ext) => Some (String c root, ext)
    | None => if decide (c = "."%char) then Some (EmptyString, s) else None
    end
  end.

Fixpoint basename (s : string) : string :=
  match s with
  | EmptyString => EmptyString
  | String c s' =>
    if existsb (λ c', bool_decide (c' = "/"%char)) (list_ascii_of_string s)
    then basename s' else s
  end.

(** [posixpath.splitext]: the extension starts at the last dot of the last
    path component, unless only dots come before it in that component. *)
Definition splitext (p : string) : string * string :=
  match split_last_dot p with
  | Some (root, ext) =>
    if existsb (λ c, bool_decide (c = "/"%char)) (list_ascii_of_string ext)
    then (p, EmptyString)
    else if forallb (λ c, bool_decide (c = "."%char)) (list_ascii_of_string (basename root))
    then (p, EmptyString)
    else (root, ext)
  | None => (p, EmptyString)
  end.

(** [str.lower] on ASCII letters. *)
Definition lower_char (c : ascii) : ascii :=
  let n := nat_of_ascii c in
  if decide (65 ≤ n ≤ 90) then ascii_of_nat (n + 32) else c.

Fixpoint lower (s : string) : string :=
  match s with
  | EmptyString => EmptyString
  | String c s' => String (lower_char c) (lower s')
  end.

End Lib.

(** ** Sample data *)

Definition row_of (cells : list (string * scalar)) : gmap string scalar :=
  list_to_map cells.

Definition frame_one_column : DataFrame :=
  {| columns := ["nome,cidade"];
     rows := [row_of [("nome,cidade", Text "José,Recife")]] |}.

Definition frame_two_columns : DataFrame :=
  {| columns := ["nome"; "cidade"];
     rows := [row_of [("nome", Text "José"); ("cidade", Text "Recife")]] |}.

(** A parser for which the semicolon fails with an error that is not a
    decoding error under "utf-8" but would parse under "latin1", and the
    comma parses under "utf-8". *)
Definition read_csv_parser_error (caminho : string) (kw : read_csv_kwargs)
  : result DataFrame :=
  if decide (sep kw = ";") then
    if decide (encoding kw = "utf-8") then Raised (Exception "Error tokenizing data")
    else Returned frame_one_column
  else Returned frame_two_columns.

(** A parser for which no bytes decode as "utf-8", the semicolon does not
    tokenize, and the comma parses under "latin1". *)
Definition read_csv_comma_latin1 (caminho : string) (kw : read_csv_kwargs)
  : result DataFrame :=
  if decide (encoding kw = "utf-8") then Raised (UnicodeDecodeError "invalid continuation byte")
  else if decide (sep kw = ",") then Returned frame_two_columns
  else Raised (Exception "Error tokenizing data").

(** A parser that fails on every call. *)
Definition read_csv_unreadable (caminho : string) (kw : read_csv_kwargs)
  : result DataFrame :=
  Raised (Exception "No columns to parse from file").

(** The rows of scenario 1 of the specification, with a third column. *)
Definition frame_scenario_1 : DataFrame :=
  {| columns := ["A"; "B"; "C"];
     rows := [row_of [("A", Text " 12  34 "); ("B", Text "x"); ("C", Number 1)];
              row_of [("A", Text "1234"); ("B", Text "y"); ("C", Missing)]] |}.

Definition app_loaded (spin : string) (lb : Listbox) : UnifiedApp :=
  {| df := Some 0;
     total_espacos_removidos := 7;
     linhas_removidas_por_tamanho := 8;
     total_duplicatas_removidas := 9;
     listbox_colunas := lb;
     spin_min_len := spin;
     label_resultado := "Arquivo carregado: dados.csv";
     icone_info_packed := true;
     tooltip_texto := "Limpeza de dados:" |}.

Definition world_loaded (spin : string) (lb : Listbox) : World :=
  {| app := app_loaded spin lb; store := [frame_scenario_1]; events := [] |}.

Definition selection_A_B : Listbox := [("A", false); ("B", true)].

Definition gerar_txt_sample : World → string → option exception → World :=
  gerar_txt Lib.int newline Logic.limpar_espacos_em_colunas
    Logic.filtrar_primeira_coluna_por_tamanho Logic.remover_duplicatas.

Definition selecionar_arquivo_sample (read_csv : string → read_csv_kwargs → result DataFrame)
  : World → string → World :=
  selecionar_arquivo read_csv (λ _, Raised (Exception "Excel file format cannot be determined"))
    Lib.splitext Lib.lower.

(** The columns A and B of the rows of scenario 1. *)
Definition frame_selected_A_B : DataFrame :=
  {| columns := ["A"; "B"];
     rows := [row_of [("A", Text " 12  34 "); ("B", Text "x")];
              row_of [("A", Text "1234"); ("B", Text "y")]] |}.

(** A parser for which no bytes decode as "utf-8" and every delimiter parses
    under "latin1": the semicolon into a single column, the comma into two. *)
Definition read_csv_all_latin1 (caminho : string) (kw : read_csv_kwargs)
  : result DataFrame :=
  if decide (encoding kw = "utf-8") then Raised (UnicodeDecodeError "invalid continuation byte")
  else if decide (sep kw = ",") then Returned frame_two_columns
  else Returned frame_one_column.

(** ** The application from its start *)

(** The help text [_build_ui] gives the tooltip. *)
Definition texto_tooltip : string :=
  ("Selecione um arquivo Excel (.xls, .xlsx), CSV ou TXT." ++ newline
   ++ "Após o carregamento, organize as colunas e gere o arquivo TXT." ++ newline
   ++ "O programa remove espaços extras e exclui linhas cuja primeira coluna "
   ++ "tenha menos caracteres que o número definido acima.")%string.

(** [__init__], with the widgets as [_build_ui] leaves them: no data set,
    the counters at zero, an empty listbox, "6" in the spinbox, an empty
    label, the icon not packed. *)
Definition __init__ : UnifiedApp :=
  {| df := None;
     total_espacos_removidos := 0;
     linhas_removidas_por_tamanho := 0;
     total_duplicatas_removidas := 0;
     listbox_colunas := [];
     spin_min_len := "6";
     label_resultado := "";
     icone_info_packed := false;
     tooltip_texto := texto_tooltip |}.

Definition world_init : World := {| app := __init__; store := []; events := [] |}.

(** The application with the three counters replaced. *)
Definition with_counters (a : UnifiedApp) (n1 n2 n3 : nat) : UnifiedApp :=
  {| df := df a;
     total_espacos_removidos := n1;
     linhas_removidas_por_tamanho := n2;
     total_duplicatas_removidas := n3;
     listbox_colunas := listbox_colunas a;
     spin_min_len := spin_min_len a;
     label_resultado := label_resultado a;
     icone_info_packed := icone_info_packed a;
     tooltip_texto := tooltip_texto a |}.

(** The application with the text of the spinbox replaced. *)
Definition with_spin (a : UnifiedApp) (text : string) : UnifiedApp :=
  {| df := df a;
     total_espacos_removidos := total_espacos_removidos a;
     linhas_removidas_por_tamanho := linhas_removidas_por_tamanho a;
     total_duplicatas_removidas := total_duplicatas_removidas a;
     listbox_colunas := listbox_colunas a;
     spin_min_len := text;
     label_resultado := label_resultado a;
     icone_info_packed := icone_info_packed a;
     tooltip_texto := tooltip_texto a |}.

(** The application with the listbox replaced. *)
Definition with_listbox (a : UnifiedApp) (lb : Listbox) : UnifiedApp :=
  {| df := df a;
     total_espacos_removidos := total_espacos_removidos a;
     linhas_removidas_por_tamanho := linhas_removidas_por_tamanho a;
     total_duplicatas_removidas := total_duplicatas_removidas a;
     listbox_colunas := lb;
     spin_min_len := spin_min_len a;
     label_resultado := label_resultado a;
     icone_info_packed := icone_info_packed a;
     tooltip_texto := tooltip_texto a |}.

(** Entries all selected, and entries none selected. *)
Definition selected_entries (l : list string) : Listbox := (λ s, (s, true)) <$> l.
Definition unselected_entries (l : list string) : Listbox := (λ s, (s, false)) <$> l.

(** What the user can do in the window: pick a file in the open dialog (or
    cancel it, with the empty path), act on the listbox, edit the spinbox,
    press the export button (with what the save dialog and the write will
    answer). *)
Inductive user_action :=
| SelecionarArquivo (caminho_arquivo : string)
| NaListbox (act : listbox_action)
| EditarSpin (text : string)
| GerarTxt (caminho_save : string) (write_error : option exception).

Section Session.

Variable read_csv : string → read_csv_kwargs → result DataFrame.
Variable read_excel : string → result DataFrame.
Variable splitext : string → string * string.
Variable lower : string → string.
Variable int : string → option Z.
Variable linesep : string.
Variable limpar_espacos_em_colunas : DataFrame → list string → stage_outcome.
Variable filtrar_primeira_coluna_por_tamanho : DataFrame → string → Z → stage_outcome.
Variable remover_duplicatas : DataFrame → string → stage_outcome.

Definition user_act (w : World) (a : user_action) : World :=
  match a with
  | SelecionarArquivo caminho_arquivo =>
    selecionar_arquivo read_csv read_excel splitext lower w caminho_arquivo
  | NaListbox act =>
    {| app := with_listbox (app w) (listbox_act (listbox_colunas (app w)) act);
       store := store w; events := events w |}
  | EditarSpin text =>
    {| app := with_spin (app w) text; store := store w; events := events w |}
  | GerarTxt caminho_save write_error =>
    gerar_txt int linesep limpar_espacos_em_colunas
      filtrar_primeira_coluna_por_tamanho remover_duplicatas w caminho_save write_error
  end.

(** The window after a sequence of actions from its start. *)
Definition session (acts : list user_action) : World := foldl user_act world_init acts.

End Session.




(** A parser that returns, for every file, the frame of scenario 1. *)
Definition read_csv_scenario_1 (caminho : string) (kw : read_csv_kwargs)
  : result DataFrame :=
  Returned frame_scenario_1.

Definition read_excel_fails (caminho : string) : result DataFrame :=
  Raised (Exception "Excel file format cannot be determined").

Definition session_sample : list user_action → World :=
  session read_csv_scenario_1 read_excel_fails Lib.splitext Lib.lower Lib.int newline
    Logic.limpar_espacos_em_colunas Logic.filtrar_primeira_coluna_por_tamanho
    Logic.remover_duplicatas.

(** A session: load a file, select the third column and remove it, set the
    threshold, export. *)
Definition actions_sample : list user_action :=
  [SelecionarArquivo "dados.csv"; NaListbox (Click [2]); NaListbox RemoverColunas;
   EditarSpin "4"; GerarTxt "out.txt" None].

(** * Properties of the reader *)

Section ReaderProps.

Context (read_csv : string → read_csv_kwargs → result DataFrame).

Local Abbreviation tentar := (tentar_leitura_csv_variavel_sep read_csv).
Local Abbreviation trace := (tentar_leitura_trace read_csv).
Local Abbreviation reachable f := (filter (λ c, eligible read_csv f c = true) candidates).

Lemma tentar_leitura_seps_table (f : string) (seps : list string) :
  tentar_leitura_seps read_csv f seps =
  (calls_until_parse read_csv f (filter (λ c, eligible read_csv f c = true) (candidates_of seps)),
   match first_parsing read_csv f (filter (λ c, eligible read_csv f c = true) (candidates_of seps)) with
   | Some d => Returned d
   | None => Raised (Exception unreadable_msg)
   end).
Proof.
  induction seps as [|s seps IH]; [done|].
  change (candidates_of (s :: seps))
    with ((s, "utf-8") :: (s, "latin1") :: candidates_of seps).
  rewrite filter_cons_True by done.
  cbn [tentar_leitura_seps first_parsing calls_until_parse].
  destruct (read_csv f (kwargs s "utf-8")) as [d|e] eqn:Hu; [done|].
  rewrite IH.
  destruct e.
  - rewrite filter_cons_True by (unfold eligible; cbn; by rewrite Hu).
    cbn [first_parsing calls_until_parse].
    by destruct (read_csv f (kwargs s "latin1")).
  - rewrite filter_cons_False by (unfold eligible; cbn; by rewrite Hu). done.
  - rewrite filter_cons_False by (unfold eligible; cbn; by rewrite Hu). done.
  - rewrite filter_cons_False by (unfold eligible; cbn; by rewrite Hu). done.
Qed.

Lemma first_parsing_Some (f : string) (l : list (string * string)) (d : DataFrame) :
  first_parsing read_csv f l = Some d →
  ∃ s enc, (s, enc) ∈ l ∧ read_csv f (kwargs s enc) = Returned d.
Proof.
  induction l as [|[s enc] l IH]; [done|]. cbn.
  destruct (read_csv f (kwargs s enc)) as [d'|e] eqn:Hr.
  - intros [= ->]. exists s, enc. split; [left|done].
  - intros (s' & enc' & ? & ?)%IH. exists s', enc'. split; [by right|done].
Qed.

Lemma first_parsing_None (f : string) (l : list (string * string)) :
  first_parsing read_csv f l = None ↔
  ∀ s enc, (s, enc) ∈ l → ∃ e, read_csv f (kwargs s enc) = Raised e.
Proof.
  induction l as [|[s enc] l IH]; cbn.
  - split; [|done]. intros _ s enc Hin. by apply elem_of_nil in Hin.
  - destruct (read_csv f (kwargs s enc)) as [d'|e] eqn:Hr.
    + split; [done|]. intros H. destruct (H s enc) as [e He]; [left|]. congruence.
    + rewrite IH. split.
      * intros H s' enc' [[= -> ->]|Hin]%elem_of_cons; eauto.
      * intros H s' enc' Hin. apply H. by right.
Qed.

Lemma calls_skip (f : string) (seps : list string) :
  Forall (λ kw, on_bad_lines kw = "skip") (tentar_leitura_seps read_csv f seps).1.
Proof.
  induction seps as [|s seps IH]; cbn; [constructor|].
  destruct (read_csv f (kwargs s "utf-8")) as [d|e]; cbn.
  - by repeat constructor.
  - destruct (tentar_leitura_seps read_csv f seps) as [calls r] eqn:Hrec. cbn in IH.
    destruct e; try (constructor; done).
    destruct (read_csv f (kwargs s "latin1")); cbn; by repeat constructor.
Qed.

(** C3, as amended.  The reader walks the delimiters semicolon, comma, tab;
    for each it calls the parser with "utf-8" first and with "latin1" only
    when "utf-8" raised a decoding error (any other error moves on to the
    next delimiter).  Its calls are those of the reachable combinations, in
    priority order, up to the first that parses, and it returns the data set
    of that one, or raises when none of them parses. *)
Theorem reader_first_reachable_parse (f : string) :
  candidates = [(";", "utf-8"); (";", "latin1"); (",", "utf-8"); (",", "latin1");
                (tab, "utf-8"); (tab, "latin1")] ∧
  (trace f).1 = calls_until_parse read_csv f (reachable f) ∧
  tentar f = match first_parsing read_csv f (reachable f) with
             | Some d => Returned d
             | None => Raised (Exception unreadable_msg)
             end.
Proof.
  split; [done|].
  unfold tentar_leitura_csv_variavel_sep, tentar_leitura_trace.
  by rewrite tentar_leitura_seps_table.
Qed.

(** The reader and the retry table of the specification agree on a file for
    which an error under "utf-8" that is not a decoding error means that
    "latin1" does not parse either. *)
Lemma first_parsing_reachable (f : string) (seps : list string) :
  (∀ s e, s ∈ seps → read_csv f (kwargs s "utf-8") = Raised e →
          (∀ m, e ≠ UnicodeDecodeError m) →
          ∃ e', read_csv f (kwargs s "latin1") = Raised e') →
  first_parsing read_csv f (filter (λ c, eligible read_csv f c = true) (candidates_of seps))
  = first_parsing read_csv f (candidates_of seps).
Proof.
  induction seps as [|s seps IH]; intros Hind; [done|].
  change (candidates_of (s :: seps))
    with ((s, "utf-8") :: (s, "latin1") :: candidates_of seps).
  rewrite filter_cons_True by done.
  cbn [first_parsing].
  destruct (read_csv f (kwargs s "utf-8")) as [d|e] eqn:Hu; [done|].
  assert (IH' : first_parsing read_csv f
                  (filter (λ c, eligible read_csv f c = true) (candidates_of seps))
                = first_parsing read_csv f (candidates_of seps)).
  { apply IH. intros s' e' Hin. apply Hind. by right. }
  destruct e as [m|m|m|m].
  - rewrite filter_cons_True by (unfold eligible; cbn; by rewrite Hu).
    cbn [first_parsing]. by rewrite IH'.
  - rewrite filter_cons_False by (unfold eligible; cbn; by rewrite Hu).
    destruct (Hind s (ValueError m)) as [e' He']; [left|done|done|].
    cbn [first_parsing]. by rewrite He'.
  - rewrite filter_cons_False by (unfold eligible; cbn; by rewrite Hu).
    destruct (Hind s (KeyError m)) as [e' He']; [left|done|done|].
    cbn [first_parsing]. by rewrite He'.
  - rewrite filter_cons_False by (unfold eligible; cbn; by rewrite Hu).
    destruct (Hind s (Exception m)) as [e' He']; [left|done|done|].
    cbn [first_parsing]. by rewrite He'.
Qed.

Lemma reader_agrees_with_table (f : string) :
  (∀ s e, s ∈ sep_list → read_csv f (kwargs s "utf-8") = Raised e →
          (∀ m, e ≠ UnicodeDecodeError m) →
          ∃ e', read_csv f (kwargs s "latin1") = Raised e') →
  tentar f = read_by_table read_csv f.
Proof.
  intros Hind. unfold tentar_leitura_csv_variavel_sep, tentar_leitura_trace, read_by_table.
  rewrite tentar_leitura_seps_table. cbn [snd].
  unfold candidates. by rewrite first_parsing_reachable.
Qed.

(** When the semicolon parses under "latin1" after a decoding error under
    "utf-8", that data set is returned and the comma is never tried. *)
Lemma semicolon_latin1_shadows (f m : string) (d : DataFrame) :
  read_csv f (kwargs ";" "utf-8") = Raised (UnicodeDecodeError m) →
  read_csv f (kwargs ";" "latin1") = Returned d →
  trace f = ([kwargs ";" "utf-8"; kwargs ";" "latin1"], Returned d).
Proof.
  intros Hu Hl. unfold tentar_leitura_trace. cbn. by rewrite Hu, Hl.
Qed.

(** C2.  For a file on which the semicolon attempts fail, the comma attempt
    raises a decoding error under "utf-8" and parses to [d] under "latin1",
    the reader returns [d], hence a frame with the columns of that parse,
    and the last call it made is the comma with "latin1". *)
Theorem reader_comma_latin1_fallback (f m : string) (d : DataFrame) :
  sep_fails read_csv f ";" →
  read_csv f (kwargs "," "utf-8") = Raised (UnicodeDecodeError m) →
  read_csv f (kwargs "," "latin1") = Returned d →
  tentar f = Returned d ∧
  last (trace f).1 = Some (kwargs "," "latin1") ∧
  ∀ d', tentar f = Returned d' → length (columns d') = length (columns d).
Proof.
  intros Hsemi Hu Hl.
  assert (Hres : tentar f = Returned d ∧ last (trace f).1 = Some (kwargs "," "latin1")).
  { unfold tentar_leitura_csv_variavel_sep, tentar_leitura_trace, sep_fails in *. cbn.
    destruct (read_csv f (kwargs ";" "utf-8")) as [?|e]; [done|].
    destruct e; try (rewrite Hu, Hl; done).
    destruct (read_csv f (kwargs ";" "latin1")); [done|].
    by rewrite Hu, Hl. }
  destruct Hres as [Hres Hlast]. split_and!; [done..|].
  intros d'. rewrite Hres. by intros [= ->].
Qed.

(** C6.  When none of the six delimiter and encoding combinations parses,
    the reader raises (the exception with the message of the source) and
    returns no data set. *)
Theorem reader_raises_when_nothing_parses (f : string) :
  (∀ s enc, (s, enc) ∈ candidates → ∃ e, read_csv f (kwargs s enc) = Raised e) →
  tentar f = Raised (Exception unreadable_msg) ∧
  ∀ d, tentar f ≠ Returned d.
Proof.
  intros Hall.
  assert (Hres : tentar f = Raised (Exception unreadable_msg)).
  { unfold tentar_leitura_csv_variavel_sep, tentar_leitura_trace.
    rewrite tentar_leitura_seps_table. cbn [snd].
    assert (first_parsing read_csv f
              (filter (λ c, eligible read_csv f c = true) (candidates_of sep_list)) = None)
      as ->; [|done].
    apply first_parsing_None. intros s enc [_ Hin]%list_elem_of_filter. by apply Hall. }
  split; [done|]. intros d. by rewrite Hres.
Qed.

End ReaderProps.

(** The reader over the parser with the line policy. *)

(** C7.  Every parser call of the reader asks for bad lines to be skipped.
    With the parser of the specification, a data set the reader returns is
    the header and the well-formed records of a tokenized combination, the
    malformed records dropped; and when the reader raises, it is with its own
    exception and every delimiter failed to tokenize under "utf-8": a
    malformed line is never the cause. *)
Theorem malformed_lines_skipped
    (tokenize : string → string → string → string → result (list string * list (list scalar)))
    (f : string) :
  Forall (λ kw, on_bad_lines kw = "skip")
    (tentar_leitura_trace (pandas_read_csv tokenize) f).1 ∧
  match tentar_leitura_csv_variavel_sep (pandas_read_csv tokenize) f with
  | Returned d =>
    ∃ s enc header records,
      (s, enc) ∈ candidates ∧
      tokenize f s double_quote enc = Returned (header, records) ∧
      d = frame_of header (filter (λ r, well_formed header r = true) records) ∧
      Forall (λ r, length r = length header)
        (filter (λ r, well_formed header r = true) records)
  | Raised e =>
    e = Exception unreadable_msg ∧
    ∀ s, s ∈ sep_list → ∃ e', tokenize f s double_quote "utf-8" = Raised e'
  end.
Proof.
  split; [apply calls_skip|].
  unfold tentar_leitura_csv_variavel_sep, tentar_leitura_trace.
  rewrite tentar_leitura_seps_table. cbn [snd].
  destruct (first_parsing _ _ _) as [d|] eqn:Hfp.
  - apply first_parsing_Some in Hfp as (s & enc & [_ Hin]%list_elem_of_filter & Hr).
    unfold pandas_read_csv in Hr. cbn in Hr.
    destruct (tokenize f s double_quote enc) as [[header records]|e] eqn:Htok; [|done].
    injection Hr as <-. exists s, enc, header, records. split_and!; try done.
    apply Forall_forall. intros r [Hwf _]%list_elem_of_filter.
    unfold well_formed in Hwf. by apply bool_decide_eq_true in Hwf.
  - split; [done|]. intros s Hs.
    pose proof (proj1 (first_parsing_None _ _ _) Hfp s "utf-8") as Hraise.
    destruct Hraise as [e He].
    { apply list_elem_of_filter. split; [done|].
      unfold candidates_of. apply list_elem_of_bind. exists s. split; [left|done]. }
    unfold pandas_read_csv in He. cbn in He.
    destruct (tokenize f s double_quote "utf-8") as [[header records]|e']; [done|].
    by exists e'.
Qed.

(** * Properties of the column selection *)

Section ListboxProps.

Implicit Types (lb : Listbox) (i j index : nat).

Lemma curselection_from_bound i lb :
  Forall (λ k, k < i + length lb) (curselection_from i lb).
Proof.
  revert i. induction lb as [|[s b] lb IH]; intros i; cbn; [constructor|].
  specialize (IH (S i)).
  assert (Forall (λ k, k < i + S (length lb)) (curselection_from (S i) lb)).
  { eapply Forall_impl; [exact IH|]. cbn. lia. }
  destruct b; [constructor; [lia|done]|done].
Qed.

Lemma lb_curselection_bound lb :
  Forall (λ k, k < lb_size lb) (lb_curselection lb).
Proof. apply (curselection_from_bound 0). Qed.

Lemma lb_set_flag_entries b i lb :
  lb_get_all (lb_set_flag b i lb) = lb_get_all lb.
Proof.
  unfold lb_get_all, lb_set_flag. revert i.
  induction lb as [|e lb IH]; intros [|i]; cbn; [done..|]. by rewrite IH.
Qed.

(** The delete and the two inserts of a move exchange the entries at [j] and
    [S j]. *)
Lemma exchange_entries (l1 l2 : Listbox) (x y : string * bool) j :
  length l1 = j →
  let lb := l1 ++ x :: y :: l2 in
  lb_insert (S j) (lb_get lb j) (lb_insert j (lb_get lb (S j)) (lb_delete j (S j) lb))
  = l1 ++ (y.1, false) :: (x.1, false) :: l2.
Proof.
  intros <- lb. subst lb.
  assert (Hx : lb_get (l1 ++ x :: y :: l2) (length l1) = x.1).
  { unfold lb_get. by rewrite list_lookup_middle. }
  assert (Hy : lb_get (l1 ++ x :: y :: l2) (S (length l1)) = y.1).
  { unfold lb_get. rewrite lookup_app_r by lia.
    by replace (S (length l1) - length l1) with 1 by lia. }
  rewrite Hx, Hy. unfold lb_delete, lb_insert.
  rewrite decide_True by lia.
  rewrite take_app_length.
  rewrite drop_app_ge by lia.
  replace (S (S (length l1)) - length l1) with 2 by lia.
  change (drop 2 (x :: y :: l2)) with l2.
  rewrite take_app_length, drop_app_length.
  replace (l1 ++ (y.1, false) :: l2) with ((l1 ++ [(y.1, false)]) ++ l2)
    by (by rewrite <-app_assoc).
  rewrite take_app_length', drop_app_length' by (rewrite length_app; cbn; lia).
  by rewrite <-app_assoc.
Qed.

Lemma split_at_pair lb j :
  S j < length lb →
  ∃ l1 x y l2, lb = l1 ++ x :: y :: l2 ∧ length l1 = j.
Proof.
  intros Hlt.
  destruct (lookup_lt_is_Some_2 lb j) as [x Hx]; [lia|].
  destruct (lookup_lt_is_Some_2 lb (S j)) as [y Hy]; [lia|].
  exists (take j lb), x, y, (drop (S (S j)) lb). split.
  - rewrite <-(take_drop_middle lb j x Hx) at 1. f_equal. f_equal.
    apply (drop_S lb y (S j)) in Hy as <-. done.
  - rewrite length_take. lia.
Qed.

Lemma mover_cima_step_perm lb index :
  index < length lb →
  lb_get_all (mover_cima_step lb index) ≡ₚ lb_get_all lb.
Proof.
  intros Hlt. unfold mover_cima_step. case_decide as H0; [done|].
  destruct index as [|j]; [done|].
  replace (S j - 1) with j by lia.
  unfold lb_selection_set, lb_selection_clear. rewrite !lb_set_flag_entries.
  destruct (split_at_pair lb j Hlt) as (l1 & x & y & l2 & -> & Hlen).
  rewrite (exchange_entries l1 l2 x y j Hlen).
  unfold lb_get_all. rewrite !fmap_app, !fmap_cons. cbn.
  apply Permutation_app_head, perm_swap.
Qed.

Lemma mover_baixo_step_perm count lb index :
  count = length lb → index < length lb →
  lb_get_all (mover_baixo_step count lb index) ≡ₚ lb_get_all lb.
Proof.
  intros -> Hlt. unfold mover_baixo_step. case_decide as Hlast; [done|].
  replace (index + 1) with (S index) by lia.
  unfold lb_selection_set, lb_selection_clear. rewrite !lb_set_flag_entries.
  destruct (split_at_pair lb index) as (l1 & x & y & l2 & -> & Hlen); [lia|].
  rewrite (exchange_entries l1 l2 x y index Hlen).
  unfold lb_get_all. rewrite !fmap_app, !fmap_cons. cbn.
  apply Permutation_app_head, perm_swap.
Qed.

Lemma lb_get_all_length lb : length (lb_get_all lb) = lb_size lb.
Proof. apply length_fmap. Qed.

(** A loop of steps that each permute the entries permutes them, as long as
    the indices it visits are those of the listbox before the loop. *)
Lemma foldl_steps_perm (step : Listbox → nat → Listbox) (n : nat) (indices : list nat) lb :
  (∀ lb' k, length lb' = n → k < n → lb_get_all (step lb' k) ≡ₚ lb_get_all lb') →
  length lb = n →
  Forall (λ k, k < n) indices →
  lb_get_all (foldl step lb indices) ≡ₚ lb_get_all lb.
Proof.
  intros Hstep. revert lb. induction indices as [|k indices IH]; intros lb Hlen Hall; [done|].
  apply Forall_cons in Hall as [Hk Hall]. cbn.
  rewrite IH; [by apply Hstep| |done].
  rewrite <-lb_get_all_length, (Permutation_length (Hstep lb k Hlen Hk)).
  by rewrite lb_get_all_length.
Qed.

Lemma mover_cima_perm lb : lb_get_all (mover_cima lb) ≡ₚ lb_get_all lb.
Proof.
  unfold mover_cima.
  apply (foldl_steps_perm _ (length lb)); [|done|apply lb_curselection_bound].
  intros lb' k <- Hk. by apply mover_cima_step_perm.
Qed.

Lemma mover_baixo_perm lb : lb_get_all (mover_baixo lb) ≡ₚ lb_get_all lb.
Proof.
  unfold mover_baixo.
  apply (foldl_steps_perm _ (length lb)); [|done|].
  - intros lb' k Hlen Hk. apply mover_baixo_step_perm; unfold lb_size; lia.
  - apply Forall_reverse, lb_curselection_bound.
Qed.

Lemma lb_delete_one_sublist lb i :
  lb_get_all (lb_delete i i lb) `sublist_of` lb_get_all lb.
Proof.
  unfold lb_get_all, lb_delete. rewrite decide_True by lia.
  apply fmap_sublist.
  rewrite <-(take_drop i lb) at 3. apply sublist_app; [done|].
  replace (S i) with (i + 1) by lia. rewrite <-drop_drop. apply sublist_drop.
Qed.

Lemma remover_colunas_sublist lb :
  lb_get_all (remover_colunas lb) `sublist_of` lb_get_all lb.
Proof.
  unfold remover_colunas. generalize (reverse (lb_curselection lb)) as indices.
  intros indices. revert lb. induction indices as [|k indices IH]; intros lb; [done|].
  cbn. etrans; [apply IH|apply lb_delete_one_sublist].
Qed.

Lemma lb_click_entries selection lb : lb_get_all (lb_click selection lb) = lb_get_all lb.
Proof.
  unfold lb_get_all, lb_click. rewrite fmap_imap.
  apply list_eq. intros i. rewrite list_lookup_imap, list_lookup_fmap.
  by destruct (lb !! i).
Qed.

Lemma valid_selection_perm cols lb lb' :
  lb_get_all lb' ≡ₚ lb_get_all lb → valid_selection cols lb → valid_selection cols lb'.
Proof.
  intros Hp [Hnd Hsub]. split; [by rewrite Hp|].
  intros x Hx. apply Hsub. by rewrite <-Hp.
Qed.

Lemma valid_selection_sublist cols lb lb' :
  lb_get_all lb' `sublist_of` lb_get_all lb → valid_selection cols lb → valid_selection cols lb'.
Proof.
  intros Hs [Hnd Hsub]. split; [by eapply sublist_NoDup|].
  intros x Hx. apply Hsub. by eapply elem_of_sublist.
Qed.

Lemma listbox_act_valid cols lb act :
  valid_selection cols lb → valid_selection cols (listbox_act lb act).
Proof.
  destruct act; cbn.
  - apply valid_selection_perm. by rewrite lb_click_entries.
  - apply valid_selection_perm, mover_cima_perm.
  - apply valid_selection_perm, mover_baixo_perm.
  - apply valid_selection_sublist, remover_colunas_sublist.
Qed.

(** [_carregar_colunas] leaves exactly the given columns, none selected. *)
Lemma _carregar_colunas_entries lb (colunas : list string) :
  lb_get_all (_carregar_colunas lb colunas) = colunas.
Proof.
  unfold _carregar_colunas.
  assert (Hempty : lb_delete 0 (lb_size lb) lb = []).
  { unfold lb_delete, lb_size. rewrite decide_True by lia. cbn.
    destruct lb; [done|]. cbn. apply drop_ge. lia. }
  rewrite Hempty.
  assert (Hgen : ∀ lb0, lb_get_all (foldl (λ lb col, lb_insert (lb_size lb) col lb) lb0 colunas)
                        = lb_get_all lb0 ++ colunas).
  { induction colunas as [|c colunas IH]; intros lb0; cbn; [by rewrite app_nil_r|].
    rewrite IH. unfold lb_insert, lb_size, lb_get_all.
    rewrite take_ge, drop_all, fmap_app by done. cbn. by rewrite <-app_assoc. }
  by rewrite Hgen.
Qed.


(** C9.  On a valid selection, moving up and moving down permute the entries
    and keep their number, removing leaves a sublist of them, and after each
    of the three, and after any sequence of clicks and button presses, the
    selection is still duplicate-free and within the columns. *)
Theorem selection_stays_valid (cols : list string) (lb : Listbox) :
  valid_selection cols lb →
  (lb_get_all (mover_cima lb) ≡ₚ lb_get_all lb ∧ lb_size (mover_cima lb) = lb_size lb) ∧
  (lb_get_all (mover_baixo lb) ≡ₚ lb_get_all lb ∧ lb_size (mover_baixo lb) = lb_size lb) ∧
  lb_get_all (remover_colunas lb) `sublist_of` lb_get_all lb ∧
  valid_selection cols (mover_cima lb) ∧
  valid_selection cols (mover_baixo lb) ∧
  valid_selection cols (remover_colunas lb) ∧
  ∀ acts : list listbox_action, valid_selection cols (foldl listbox_act lb acts).
Proof.
  intros Hvalid.
  pose proof (mover_cima_perm lb) as Hc.
  pose proof (mover_baixo_perm lb) as Hb.
  pose proof (remover_colunas_sublist lb) as Hr.
  split_and!; try done.
  - rewrite <-!lb_get_all_length. by apply Permutation_length.
  - rewrite <-!lb_get_all_length. by apply Permutation_length.
  - by eapply valid_selection_perm.
  - by eapply valid_selection_perm.
  - by eapply valid_selection_sublist.
  - intros acts. clear Hc Hb Hr. revert lb Hvalid.
    induction acts as [|act acts IH]; intros lb Hvalid; [done|].
    cbn. by apply IH, listbox_act_valid.
Qed.

End ListboxProps.

(** * Properties of the handlers *)

Section AppProps.

Context (read_csv : string → read_csv_kwargs → result DataFrame).
Context (read_excel : string → result DataFrame).
Context (splitext : string → string * string) (lower : string → string).
Context (int : string → option Z) (linesep : string).
Context (limpar_espacos_em_colunas : DataFrame → list string → stage_outcome).
Context (filtrar_primeira_coluna_por_tamanho : DataFrame → string → Z → stage_outcome).
Context (remover_duplicatas : DataFrame → string → stage_outcome).

Local Abbreviation gerar :=
  (gerar_txt int linesep limpar_espacos_em_colunas
     filtrar_primeira_coluna_por_tamanho remover_duplicatas).
Local Abbreviation pipeline :=
  (limpar_pipeline limpar_espacos_em_colunas
     filtrar_primeira_coluna_por_tamanho remover_duplicatas).
Local Abbreviation selecionar := (selecionar_arquivo read_csv read_excel splitext lower).
Local Abbreviation ler := (ler_arquivo read_csv read_excel splitext lower).

(** A cleaning call reads back as the frame it returned, returns a reference
    into the store, and leaves every object below its argument alone. *)
Lemma call_stage_spec (o : stage_outcome) (st : Store) (l : nat) :
  l < length st →
  (call_stage o st l).1 !!! (call_stage o st l).2 = stage_value o ∧
  (call_stage o st l).2 < length (call_stage o st l).1 ∧
  ∀ n, n ≤ l →
       n ≤ (call_stage o st l).2 ∧ take n (call_stage o st l).1 = take n st.
Proof.
  intros Hl. unfold call_stage, stage_value.
  destruct (returned_new o) as [d|]; cbn.
  - split_and!.
    + by apply list_lookup_total_middle.
    + rewrite length_app. cbn. lia.
    + intros n Hn. rewrite length_insert. split; [lia|].
      rewrite take_app_le by (rewrite length_insert; lia).
      by apply take_insert_ge.
  - split_and!.
    + by apply list_lookup_total_insert_eq.
    + by rewrite length_insert.
    + intros n Hn. split; [done|]. by apply take_insert_ge.
Qed.

(** The three calls, read off the store, are the composition of the three
    functions on the frame at [l_copy]. *)
Lemma limpar_pipeline_spec (a : UnifiedApp) (st : Store) (l_copy : nat)
    (colunas : list string) (primeira_col : string) (min_len : Z) :
  l_copy < length st →
  let o1 := limpar_espacos_em_colunas (st !!! l_copy) colunas in
  let o2 := filtrar_primeira_coluna_por_tamanho (stage_value o1) primeira_col min_len in
  let o3 := remover_duplicatas (stage_value o2) primeira_col in
  ∃ a' st' l',
    pipeline a st l_copy colunas primeira_col min_len =
      (a', st', l',
       [called_limpar_espacos_em_colunas (st !!! l_copy) colunas;
        called_filtrar_primeira_coluna_por_tamanho (stage_value o1) primeira_col min_len;
        called_remover_duplicatas (stage_value o2) primeira_col]) ∧
    st' !!! l' = stage_value o3 ∧
    (∀ n, n ≤ l_copy → take n st' = take n st) ∧
    df a' = df a ∧
    total_espacos_removidos a' = affected o1 ∧
    linhas_removidas_por_tamanho a' = affected o2 ∧
    total_duplicatas_removidas a' = affected o3.
Proof.
  intros Hl o1 o2 o3. unfold limpar_pipeline.
  fold o1.
  destruct (call_stage_spec o1 st l_copy Hl) as (Hv1 & Hl1 & Hf1).
  rewrite Hv1. fold o2.
  destruct (call_stage_spec o2 _ _ Hl1) as (Hv2 & Hl2 & Hf2).
  rewrite Hv2. fold o3.
  destruct (call_stage_spec o3 _ _ Hl2) as (Hv3 & Hl3 & Hf3).
  eexists _, _, _. split; [reflexivity|].
  split_and!; try done.
  intros n Hn.
  destruct (Hf1 n Hn) as [Hn1 E1].
  destruct (Hf2 n Hn1) as [Hn2 E2].
  destruct (Hf3 n Hn2) as [_ E3].
  etrans; [|exact E1]. etrans; [|exact E2]. exact E3.
Qed.


Lemma string_append_assoc (s1 s2 s3 : string) :
  ((s1 ++ s2) ++ s3 = s1 ++ (s2 ++ s3))%string.
Proof.
  induction s1 as [|c s1 IH]; [done|].
  change (String c ((s1 ++ s2) ++ s3) = String c (s1 ++ (s2 ++ s3)))%string.
  by f_equal.
Qed.

Lemma string_append_empty_r (s : string) : (s ++ "")%string = s.
Proof.
  induction s as [|c s IH]; [done|].
  change (String c (s ++ "")%string = String c s). by f_equal.
Qed.

Lemma string_concat_empty_cons (x : string) (xs : list string) :
  String.concat "" (x :: xs) = (x ++ String.concat "" xs)%string.
Proof.
  destruct xs as [|y ys].
  - symmetry. apply string_append_empty_r.
  - reflexivity.
Qed.

(** What [salvar] leaves and adds. *)
Lemma salvar_spec (a : UnifiedApp) (st : Store) (l : nat) (evs : list event)
    (caminho_save : string) (write_error : option exception) :
  app (salvar linesep a st l evs caminho_save write_error) = a ∧
  store (salvar linesep a st l evs caminho_save write_error) = st ∧
  ∃ tail, events (salvar linesep a st l evs caminho_save write_error) = evs ++ tail ∧
          cleaning_calls tail = [] ∧
          ∀ d p s i e, called_to_csv d p s i e ∈ tail → d = st !!! l.
Proof.
  unfold salvar. case_decide.
  - split_and!; try done. exists []. rewrite app_nil_r. split_and!; try done.
    intros * Hin. by apply elem_of_nil in Hin.
  - destruct write_error as [e|]; cbn.
    + split_and!; try done. eexists. split_and!; try done.
      intros d p s i enc Hin.
      apply elem_of_cons in Hin as [[= -> _ _ _ _]|Hin]; [done|].
      by apply list_elem_of_singleton in Hin.
    + split_and!; try done. eexists. split_and!; try done.
      intros d p s i enc Hin.
      apply elem_of_cons in Hin as [[= -> _ _ _ _]|Hin]; [done|].
      apply elem_of_cons in Hin as [?|Hin]; [done|].
      by apply list_elem_of_singleton in Hin.
Qed.

(** An export run that passes the checks is the three cleaning calls on a
    copy of the selected columns, followed by [salvar]. *)
Lemma gerar_txt_valid (w : World) (caminho_save : string) (write_error : option exception)
    (l : nat) (primeira_col : string) (rest : list string) (min_len : Z)
    (selected : DataFrame) :
  df (app w) = Some l →
  lb_get_all (listbox_colunas (app w)) = primeira_col :: rest →
  int (spin_min_len (app w)) = Some min_len →
  (1 ≤ min_len)%Z →
  getitem (store w !!! l) (primeira_col :: rest) = Returned selected →
  let colunas := primeira_col :: rest in
  let o1 := limpar_espacos_em_colunas selected colunas in
  let o2 := filtrar_primeira_coluna_por_tamanho (stage_value o1) primeira_col min_len in
  let o3 := remover_duplicatas (stage_value o2) primeira_col in
  ∃ a' st' l',
    gerar w caminho_save write_error =
      salvar linesep a' st' l'
        (events w ++
         [called_limpar_espacos_em_colunas selected colunas;
          called_filtrar_primeira_coluna_por_tamanho (stage_value o1) primeira_col min_len;
          called_remover_duplicatas (stage_value o2) primeira_col])
        caminho_save write_error ∧
    st' !!! l' = stage_value o3 ∧
    take (length (store w)) st' = store w ∧
    df a' = df (app w) ∧
    total_espacos_removidos a' = affected o1 ∧
    linhas_removidas_por_tamanho a' = affected o2 ∧
    total_duplicatas_removidas a' = affected o3.
Proof.
  intros Hdf Hcols Hint Hmin Hget colunas o1 o2 o3.
  unfold gerar_txt. rewrite Hdf, Hcols, Hint.
  rewrite decide_False by lia. rewrite Hget.
  set (st1 := store w ++ [selected]).
  set (st2 := st1 ++ [st1 !!! length (store w)]).
  assert (Hcopy : st2 !!! length st1 = selected).
  { unfold st2. rewrite list_lookup_total_middle by done.
    unfold st1. by rewrite list_lookup_total_middle. }
  assert (Hlt : length st1 < length st2).
  { unfold st2. rewrite length_app. cbn. lia. }
  destruct (limpar_pipeline_spec (app w) st2 (length st1) colunas primeira_col min_len Hlt)
    as (a' & st' & l' & Hp & Hv & Hframe & Ha).
  rewrite Hcopy in Hp, Hv, Ha. fold colunas. rewrite Hp.
  destruct Ha as (Ha0 & Ha1 & Ha2 & Ha3).
  exists a', st', l'. split_and!; try done.
  - rewrite (Hframe (length (store w))).
    + unfold st2, st1. rewrite <-app_assoc. apply take_app_length.
    + unfold st1. rewrite length_app. lia.
  - by rewrite Ha0.
Qed.

(** C1.  On an export run that passes the checks, the cleaning calls are,
    in this order, the white-space cleaning of the copy of the selected
    columns, the length filter of what the cleaning returned, and the
    duplicate removal of what the filter returned; the filter and the
    duplicate removal are keyed on the first entry of the selection; the
    three counters are the three counts; and it is the outcome of the
    duplicate removal that is written. *)
Theorem stages_in_fixed_order (w : World) (caminho_save : string)
    (write_error : option exception) (l : nat) (primeira_col : string)
    (rest : list string) (min_len : Z) (selected : DataFrame) :
  df (app w) = Some l →
  lb_get_all (listbox_colunas (app w)) = primeira_col :: rest →
  int (spin_min_len (app w)) = Some min_len →
  (1 ≤ min_len)%Z →
  getitem (store w !!! l) (primeira_col :: rest) = Returned selected →
  let colunas := primeira_col :: rest in
  let o1 := limpar_espacos_em_colunas selected colunas in
  let o2 := filtrar_primeira_coluna_por_tamanho (stage_value o1) primeira_col min_len in
  let o3 := remover_duplicatas (stage_value o2) primeira_col in
  let w' := gerar w caminho_save write_error in
  head colunas = Some primeira_col ∧
  (∃ tail,
     events w' = events w ++
       [called_limpar_espacos_em_colunas selected colunas;
        called_filtrar_primeira_coluna_por_tamanho (stage_value o1) primeira_col min_len;
        called_remover_duplicatas (stage_value o2) primeira_col] ++ tail ∧
     cleaning_calls tail = [] ∧
     ∀ d p s i e, called_to_csv d p s i e ∈ tail → d = stage_value o3) ∧
  total_espacos_removidos (app w') = affected o1 ∧
  linhas_removidas_por_tamanho (app w') = affected o2 ∧
  total_duplicatas_removidas (app w') = affected o3.
Proof.
  intros Hdf Hcols Hint Hmin Hget colunas o1 o2 o3 w'.
  destruct (gerar_txt_valid w caminho_save write_error l primeira_col rest min_len
              selected Hdf Hcols Hint Hmin Hget)
    as (a' & st' & l' & Hrun & Hv & _ & _ & Hc1 & Hc2 & Hc3).
  subst w'. rewrite Hrun.
  match goal with
  | |- context [salvar _ ?a ?st ?l0 ?evs ?cs ?we] =>
    destruct (salvar_spec a st l0 evs cs we)
      as (Happ & _ & tail & Hev & Hclean & Hcsv)
  end.
  rewrite Happ, Hev.
  split_and!; try done.
  exists tail. rewrite <-app_assoc. split_and!; try done.
  intros d p s i enc Hin. etrans; [by eapply Hcsv|exact Hv].
Qed.

(** C4.  When no data set is loaded, the selection is empty, the threshold
    text is not an integer or the threshold is below 1, the export handler
    shows one warning and returns: the application and the store are as
    before, and no cleaning function is called. *)
Theorem invalid_export_rejected (w : World) (caminho_save : string)
    (write_error : option exception) :
  df (app w) = None ∨
  lb_get_all (listbox_colunas (app w)) = [] ∨
  match int (spin_min_len (app w)) with
  | None => True
  | Some min_len => (min_len < 1)%Z
  end →
  let w' := gerar w caminho_save write_error in
  app w' = app w ∧ store w' = store w ∧
  (∃ message, events w' = events w ++ [showwarning "Aviso" message]) ∧
  cleaning_calls (events w') = cleaning_calls (events w).
Proof.
  intros Hbad w'.
  assert (Haviso : ∃ message, w' = aviso w message).
  { subst w'. unfold gerar_txt.
    destruct (df (app w)) as [l|]; [|by eexists].
    destruct (lb_get_all (listbox_colunas (app w))) as [|c cs]; [by eexists|].
    destruct (int (spin_min_len (app w))) as [min_len|]; [|by eexists].
    case_decide; [by eexists|].
    destruct Hbad as [?|[?|?]]; [done|done|lia]. }
  destruct Haviso as [message ->]. cbn. split_and!; try done; [by eexists|].
  unfold cleaning_calls. rewrite filter_app. cbn. by rewrite app_nil_r.
Qed.

(** C5.  On an export run that passes the checks, with cleaning functions
    that keep the columns of their frame, a chosen path and a write that
    succeeds: one file is written, with the semicolon as delimiter and the
    encoding with the byte-order mark; its text is the mark, the header line
    of the selection in its order, and one line per row of the cleaned
    frame holding the cells of the selected columns in that order. *)
Theorem exported_file_format (w : World) (caminho_save : string)
    (l : nat) (primeira_col : string) (rest : list string) (min_len : Z)
    (selected : DataFrame) :
  (∀ d cs, columns (stage_value (limpar_espacos_em_colunas d cs)) = columns d) →
  (∀ d c n, columns (stage_value (filtrar_primeira_coluna_por_tamanho d c n)) = columns d) →
  (∀ d c, columns (stage_value (remover_duplicatas d c)) = columns d) →
  df (app w) = Some l →
  lb_get_all (listbox_colunas (app w)) = primeira_col :: rest →
  int (spin_min_len (app w)) = Some min_len →
  (1 ≤ min_len)%Z →
  getitem (store w !!! l) (primeira_col :: rest) = Returned selected →
  caminho_save ≠ "" →
  let colunas := primeira_col :: rest in
  let w' := gerar w caminho_save None in
  ∃ calls final info,
    events w' = events w ++ calls ++
      [called_to_csv final caminho_save ";" false "utf-8-sig";
       file_written caminho_save (expected_file linesep colunas (rows final));
       showinfo "Sucesso" info] ∧
    cleaning_calls calls = calls ∧
    columns final = colunas ∧
    length (csv_lines final ";" false) = S (length (rows final)).
Proof.
  intros Hk1 Hk2 Hk3 Hdf Hcols Hint Hmin Hget Hpath colunas w'.
  destruct (gerar_txt_valid w caminho_save None l primeira_col rest min_len
              selected Hdf Hcols Hint Hmin Hget)
    as (a' & st' & l' & Hrun & Hv & _).
  subst w'. rewrite Hrun. unfold salvar. rewrite decide_False by done. cbn.
  rewrite Hv.
  set (final := stage_value (remover_duplicatas _ _)).
  assert (Hfinal : columns final = colunas).
  { unfold final. rewrite Hk3, Hk2, Hk1.
    unfold getitem in Hget. case_decide; [|done]. by injection Hget as <-. }
  eexists _, final, _. split_and!.
  - rewrite <-app_assoc. f_equal. f_equal. f_equal. f_equal.
    unfold to_csv, expected_file, csv_lines.
    rewrite decide_True by done. rewrite Hfinal. f_equal.
    rewrite !fmap_cons, string_concat_empty_cons, string_append_assoc.
    by rewrite <-!list_fmap_compose.
  - done.
  - done.
  - unfold csv_lines. rewrite length_fmap. cbn. by rewrite length_fmap.
Qed.

(** C8.  An export run leaves [self.df] the same reference and every object
    that was in the store before the run as it was; in particular the
    loaded data set is the same before and after. *)
Theorem export_keeps_loaded_dataset (w : World) (caminho_save : string)
    (write_error : option exception) :
  let w' := gerar w caminho_save write_error in
  df (app w') = df (app w) ∧
  take (length (store w)) (store w') = store w ∧
  ∀ l d, df (app w) = Some l → store w !! l = Some d → store w' !! l = Some d.
Proof.
  intros w'.
  assert (Hmain : df (app w') = df (app w) ∧ take (length (store w)) (store w') = store w).
  { subst w'.
    assert (Haviso : ∀ message,
      df (app (aviso w message)) = df (app w) ∧
      take (length (store w)) (store (aviso w message)) = store w).
    { intros message. cbn. split; [done|]. by rewrite take_ge. }
    destruct (df (app w)) as [l|] eqn:Hdf; [|unfold gerar_txt; rewrite Hdf; apply Haviso].
    destruct (lb_get_all (listbox_colunas (app w))) as [|c cs] eqn:Hcols;
      [unfold gerar_txt; rewrite Hdf, Hcols; apply Haviso|].
    destruct (int (spin_min_len (app w))) as [min_len|] eqn:Hint;
      [|unfold gerar_txt; rewrite Hdf, Hcols, Hint; apply Haviso].
    destruct (decide (min_len < 1)%Z) as [Hlt|Hge];
      [unfold gerar_txt; rewrite Hdf, Hcols, Hint, decide_True by done; apply Haviso|].
    destruct (getitem (store w !!! l) (c :: cs)) as [selected|e] eqn:Hget.
    - destruct (gerar_txt_valid w caminho_save write_error l c cs min_len selected)
        as (a' & st' & l' & Hrun & _ & Hframe & Ha & _); [done|done|done|lia|done|].
      rewrite Hrun.
      match goal with
      | |- context [salvar _ ?a ?st ?l0 ?evs ?cs ?we] =>
        destruct (salvar_spec a st l0 evs cs we) as (-> & -> & _)
      end.
      by rewrite Ha, Hdf.
    - unfold gerar_txt. rewrite Hdf, Hcols, Hint, decide_False, Hget by done. cbn.
      split; [done|]. by rewrite take_ge. }
  destruct Hmain as [Hdf Htake]. split_and!; try done.
  intros l d _ Hl. rewrite <-Htake in Hl.
  apply lookup_take_Some in Hl. by destruct Hl.
Qed.

(** C10.  When the dialog is cancelled only the label and the icon change.
    When the read raises, the application and the store are as before, and
    the error is shown: the data set and the three counters are kept.  When
    the read returns a frame, that frame becomes the data set, the listbox
    holds its columns and the three counters are zero. *)
Theorem failed_load_keeps_state (w : World) (caminho_arquivo : string) :
  let w' := selecionar w caminho_arquivo in
  if decide (caminho_arquivo = "") then
    df (app w') = df (app w) ∧ store w' = store w ∧ events w' = events w ∧
    total_espacos_removidos (app w') = total_espacos_removidos (app w) ∧
    linhas_removidas_por_tamanho (app w') = linhas_removidas_por_tamanho (app w) ∧
    total_duplicatas_removidas (app w') = total_duplicatas_removidas (app w)
  else
    match (ler caminho_arquivo).2 with
    | Raised e =>
      app w' = app w ∧ store w' = store w ∧
      events w' = events w ++ (ler caminho_arquivo).1 ++
        [showerror "Erro" ("Falha ao ler o arquivo:" ++ newline ++ exc_str e)%string]
    | Returned d =>
      (∃ l, df (app w') = Some l ∧ store w' !! l = Some d) ∧
      take (length (store w)) (store w') = store w ∧
      lb_get_all (listbox_colunas (app w')) = columns d ∧
      total_espacos_removidos (app w') = 0 ∧
      linhas_removidas_por_tamanho (app w') = 0 ∧
      total_duplicatas_removidas (app w') = 0
    end.
Proof.
  intros w'. subst w'. unfold selecionar_arquivo.
  case_decide; [done|].
  destruct (ler caminho_arquivo) as [reads [d|e]]; cbn; [|done].
  split_and!; try done.
  - exists (length (store w)). split; [done|]. by apply list_lookup_middle.
  - apply take_app_length.
  - rewrite _carregar_colunas_entries. by rewrite list_lookup_total_middle.
Qed.

End AppProps.

(** * Further properties of the reader *)

Section ReaderMore.

Context (read_csv : string → read_csv_kwargs → result DataFrame).

Local Abbreviation tentar := (tentar_leitura_csv_variavel_sep read_csv).
Local Abbreviation trace := (tentar_leitura_trace read_csv).
Local Abbreviation raises f := (λ kw, ∃ e, read_csv f kw = Raised e).

Lemma tentar_leitura_seps_last (f : string) (seps : list string) :
  match (tentar_leitura_seps read_csv f seps).2 with
  | Returned d =>
    ∃ earlier kw,
      (tentar_leitura_seps read_csv f seps).1 = earlier ++ [kw] ∧
      read_csv f kw = Returned d ∧ Forall (raises f) earlier
  | Raised _ => Forall (raises f) (tentar_leitura_seps read_csv f seps).1
  end.
Proof.
  induction seps as [|s seps IH]; cbn; [constructor|].
  destruct (read_csv f (kwargs s "utf-8")) as [d|e] eqn:Hu; cbn.
  { exists [], (kwargs s "utf-8"). by split_and!. }
  destruct (tentar_leitura_seps read_csv f seps) as [calls r] eqn:Hrec. cbn in IH.
  assert (Hrest : ∀ pre, Forall (raises f) pre →
            match r with
            | Returned d =>
              ∃ earlier kw, pre ++ calls = earlier ++ [kw] ∧
                read_csv f kw = Returned d ∧ Forall (raises f) earlier
            | Raised _ => Forall (raises f) (pre ++ calls)
            end).
  { intros pre Hpre. destruct r as [d|e'].
    - destruct IH as (earlier & kw & -> & Hkw & Hearlier).
      exists (pre ++ earlier), kw. rewrite app_assoc. split_and!; try done.
      by apply Forall_app.
    - by apply Forall_app. }
  destruct e as [m|m|m|m].
  - destruct (read_csv f (kwargs s "latin1")) as [d|e'] eqn:Hl; cbn.
    + exists [kwargs s "utf-8"], (kwargs s "latin1"). split_and!; try done.
      repeat constructor. by eexists.
    + apply (Hrest [kwargs s "utf-8"; kwargs s "latin1"]).
      repeat constructor; by eexists.
  - apply (Hrest [kwargs s "utf-8"]). repeat constructor; by eexists.
  - apply (Hrest [kwargs s "utf-8"]). repeat constructor; by eexists.
  - apply (Hrest [kwargs s "utf-8"]). repeat constructor; by eexists.
Qed.

(** X1.  The reader returns the outcome of its last call, every earlier call
    having raised; and when it raises, every call it made raised. *)
Theorem reader_stops_at_first_success (f : string) :
  match tentar_leitura_csv_variavel_sep read_csv f with
  | Returned d =>
    ∃ earlier kw,
      (tentar_leitura_trace read_csv f).1 = earlier ++ [kw] ∧
      read_csv f kw = Returned d ∧
      Forall (λ kw', ∃ e, read_csv f kw' = Raised e) earlier
  | Raised _ =>
    Forall (λ kw', ∃ e, read_csv f kw' = Raised e) (tentar_leitura_trace read_csv f).1
  end.
Proof. apply tentar_leitura_seps_last. Qed.

(** X2.  An exception of the parser never leaves the reader: whatever the
    reader raises is its own exception with its fixed message. *)
Theorem reader_raises_only_its_own (f : string) (e : exception) :
  tentar f = Raised e → e = Exception unreadable_msg.
Proof.
  unfold tentar_leitura_csv_variavel_sep, tentar_leitura_trace.
  rewrite tentar_leitura_seps_table. cbn [snd].
  destruct (first_parsing _ _ _); [done|]. by intros [= <-].
Qed.

Lemma tentar_leitura_seps_raises (f : string) (seps : list string) :
  (∃ e, (tentar_leitura_seps read_csv f seps).2 = Raised e) ↔
  Forall (sep_fails read_csv f) seps.
Proof.
  induction seps as [|s seps IH]; cbn.
  - split; [constructor|]. by eexists.
  - rewrite Forall_cons, <-IH. unfold sep_fails.
    destruct (read_csv f (kwargs s "utf-8")) as [d|e]; cbn.
    { split; [by intros [? ?]|by intros [[] _]]. }
    destruct (tentar_leitura_seps read_csv f seps) as [calls r]. cbn.
    destruct e; try (split; [by intros ?|by intros [_ ?]]).
    destruct (read_csv f (kwargs s "latin1")); cbn.
    + split; [by intros [? ?]|by intros [[] _]].
    + split; [by intros ?|by intros [_ ?]].
Qed.

(** X3.  The reader raises exactly when each of the three delimiters fails:
    its attempt under "utf-8" raises, and if that is a decoding error its
    attempt under "latin1" raises too. *)
Theorem reader_raises_iff_every_delimiter_fails (f : string) :
  (∃ e, tentar f = Raised e) ↔
  sep_fails read_csv f ";" ∧ sep_fails read_csv f "," ∧ sep_fails read_csv f tab.
Proof.
  unfold tentar_leitura_csv_variavel_sep, tentar_leitura_trace.
  rewrite tentar_leitura_seps_raises. unfold sep_list.
  rewrite !Forall_cons, Forall_nil. tauto.
Qed.

Lemma calls_until_parse_sublist (f : string) (l : list (string * string)) :
  calls_until_parse read_csv f l `sublist_of` (λ c, kwargs c.1 c.2) <$> l.
Proof.
  induction l as [|[s enc] l IH]; cbn; [done|].
  destruct (read_csv f (kwargs s enc)).
  - apply sublist_skip, sublist_nil_l.
  - by apply sublist_skip.
Qed.

(** X4.  The calls of the reader form a subsequence of the six combinations
    in priority order, so no combination is tried twice or out of order;
    there are between one and six of them, and the first is always the
    semicolon under "utf-8". *)
Theorem reader_calls_in_priority_order (f : string) :
  (trace f).1 `sublist_of`
    [kwargs ";" "utf-8"; kwargs ";" "latin1"; kwargs "," "utf-8"; kwargs "," "latin1";
     kwargs tab "utf-8"; kwargs tab "latin1"] ∧
  head (trace f).1 = Some (kwargs ";" "utf-8") ∧
  1 ≤ length (trace f).1 ≤ 6.
Proof.
  assert (Hsub : (trace f).1 `sublist_of` (λ c, kwargs c.1 c.2) <$> candidates).
  { unfold tentar_leitura_trace. rewrite tentar_leitura_seps_table. cbn [fst].
    etrans; [apply calls_until_parse_sublist|].
    apply fmap_sublist, sublist_filter. }
  assert (Hhead : head (trace f).1 = Some (kwargs ";" "utf-8")).
  { unfold tentar_leitura_trace. cbn.
    destruct (read_csv f (kwargs ";" "utf-8")) as [d|e]; [done|].
    destruct e; repeat case_match; done. }
  split_and!; [exact Hsub|exact Hhead| |].
  - destruct (trace f).1; [done|cbn; lia].
  - apply sublist_length in Hsub. exact Hsub.
Qed.

Lemma tentar_leitura_seps_before (f : string) (seps : list string) (kw : read_csv_kwargs) :
  kw ∈ (tentar_leitura_seps read_csv f seps).1 →
  ∃ pre post,
    seps = pre ++ sep kw :: post ∧
    Forall (sep_fails read_csv f) pre ∧
    (kw = kwargs (sep kw) "utf-8" ∨
     kw = kwargs (sep kw) "latin1" ∧
     ∃ m, read_csv f (kwargs (sep kw) "utf-8") = Raised (UnicodeDecodeError m)).
Proof.
  induction seps as [|s seps IH]; cbn; [by intros ?%elem_of_nil|].
  assert (Hhere : ∃ pre post, s :: seps = pre ++ s :: post ∧
                              Forall (sep_fails read_csv f) pre).
  { by exists [], seps. }
  destruct Hhere as (pre0 & post0 & Heq0 & Hpre0).
  destruct (read_csv f (kwargs s "utf-8")) as [d|e] eqn:Hu; cbn.
  { intros ->%list_elem_of_singleton. exists pre0, post0. cbn. split_and!; try done. by left. }
  destruct (tentar_leitura_seps read_csv f seps) as [calls r] eqn:Hrec. cbn in IH.
  assert (Hlater : sep_fails read_csv f s → kw ∈ calls →
            ∃ pre post, s :: seps = pre ++ sep kw :: post ∧
              Forall (sep_fails read_csv f) pre ∧
              (kw = kwargs (sep kw) "utf-8" ∨
               kw = kwargs (sep kw) "latin1" ∧
               ∃ m, read_csv f (kwargs (sep kw) "utf-8") = Raised (UnicodeDecodeError m))).
  { intros Hfail (pre & post & -> & Hpre & Hkw)%IH.
    exists (s :: pre), post. split_and!; try done. by constructor. }
  destruct e as [m|m|m|m].
  - destruct (read_csv f (kwargs s "latin1")) as [d|e'] eqn:Hl; cbn.
    + intros [->|[->|?%elem_of_nil]%elem_of_cons]%elem_of_cons; [| |done].
      * exists pre0, post0. cbn. split_and!; try done. by left.
      * exists pre0, post0. cbn. split_and!; try done. right. split; [done|]. by exists m.
    + intros [->|[->|Hin]%elem_of_cons]%elem_of_cons.
      * exists pre0, post0. cbn. split_and!; try done. by left.
      * exists pre0, post0. cbn. split_and!; try done. right. split; [done|]. by exists m.
      * apply Hlater; [|done]. unfold sep_fails. by rewrite Hu, Hl.
  - intros [->|Hin]%elem_of_cons.
    + exists pre0, post0. cbn. split_and!; try done. by left.
    + apply Hlater; [|done]. unfold sep_fails. by rewrite Hu.
  - intros [->|Hin]%elem_of_cons.
    + exists pre0, post0. cbn. split_and!; try done. by left.
    + apply Hlater; [|done]. unfold sep_fails. by rewrite Hu.
  - intros [->|Hin]%elem_of_cons.
    + exists pre0, post0. cbn. split_and!; try done. by left.
    + apply Hlater; [|done]. unfold sep_fails. by rewrite Hu.
Qed.

(** X5.  A later delimiter is tried only after the earlier ones failed, and
    "latin1" only after a decoding error: if the reader calls the parser
    with the comma, the semicolon failed; if with the tab, the semicolon and
    the comma failed; if under "latin1", the same delimiter raised a
    decoding error under "utf-8". *)
Theorem reader_tries_later_only_after_failure (f : string) (kw : read_csv_kwargs) :
  kw ∈ (trace f).1 →
  (sep kw = "," → sep_fails read_csv f ";") ∧
  (sep kw = tab → sep_fails read_csv f ";" ∧ sep_fails read_csv f ",") ∧
  (encoding kw = "latin1" →
   ∃ m, read_csv f (kwargs (sep kw) "utf-8") = Raised (UnicodeDecodeError m)).
Proof.
  intros (pre & post & Hseps & Hpre & Hkw)%tentar_leitura_seps_before.
  assert (Hcases : pre = [] ∧ sep kw = ";" ∨ pre = [";"] ∧ sep kw = "," ∨
                   pre = [";"; ","] ∧ sep kw = tab).
  { unfold sep_list in Hseps.
    destruct pre as [|p1 [|p2 [|p3 pre]]]; simplify_eq/=; auto.
    by destruct pre. }
  split_and!.
  - intros Hs. destruct Hcases as [[_ Hc]|[[-> _]|[_ Hc]]];
      [by rewrite Hs in Hc| |by rewrite Hs in Hc].
    by apply Forall_cons in Hpre as [? _].
  - intros Hs. destruct Hcases as [[_ Hc]|[[_ Hc]|[-> _]]];
      [by rewrite Hs in Hc|by rewrite Hs in Hc|].
    apply Forall_cons in Hpre as [? Hpre]. by apply Forall_cons in Hpre as [? _].
  - intros Henc. destruct Hkw as [Hkw|[_ Hm]]; [|done].
    rewrite Hkw in Henc. done.
Qed.

(** X6.  On a file for which an error under "utf-8" that is not a decoding
    error means that "latin1" fails as well, the reader returns what the
    six-entry retry table tried in sequence returns. *)
Theorem reader_is_retry_table (f : string) :
  (∀ s e, s ∈ sep_list → read_csv f (kwargs s "utf-8") = Raised e →
          (∀ m, e ≠ UnicodeDecodeError m) →
          ∃ e', read_csv f (kwargs s "latin1") = Raised e') →
  tentar f = read_by_table read_csv f.
Proof.
  intros Hind. unfold tentar_leitura_csv_variavel_sep, tentar_leitura_trace, read_by_table.
  rewrite tentar_leitura_seps_table. cbn [snd].
  unfold candidates. by rewrite first_parsing_reachable.
Qed.

End ReaderMore.

(** * Further properties of the listbox *)

Section ListboxMore.

Implicit Types (lb pre rest : Listbox) (block : list string).

Lemma curselection_from_unselected_app i (l : list string) lb :
  curselection_from i (unselected_entries l ++ lb) = curselection_from (i + length l) lb.
Proof.
  revert i. induction l as [|s l IH]; intros i; cbn.
  - by rewrite Nat.add_0_r.
  - rewrite IH. f_equal. lia.
Qed.

Lemma curselection_from_selected_app i (l : list string) lb :
  curselection_from i (selected_entries l ++ lb)
  = seq i (length l) ++ curselection_from (i + length l) lb.
Proof.
  revert i. induction l as [|s l IH]; intros i; cbn.
  - by rewrite Nat.add_0_r.
  - rewrite IH. do 3 f_equal. lia.
Qed.

Lemma curselection_from_unselected i (l : list string) :
  curselection_from i (unselected_entries l) = [].
Proof.
  rewrite <-(app_nil_r (unselected_entries l)).
  by rewrite curselection_from_unselected_app.
Qed.

Lemma lb_set_flag_middle (b : bool) (l1 l2 : Listbox) (e : string * bool) :
  lb_set_flag b (length l1) (l1 ++ e :: l2) = l1 ++ (e.1, b) :: l2.
Proof.
  unfold lb_set_flag. induction l1 as [|x l1 IH]; cbn; [done|]. by rewrite IH.
Qed.

(** A step of [mover_cima] at the index after [l1] exchanges the two entries
    there; the one moved up is selected, the one moved down is not. *)
Lemma mover_cima_step_swap (l1 l2 : Listbox) (x y : string * bool) :
  mover_cima_step (l1 ++ x :: y :: l2) (S (length l1))
  = l1 ++ (y.1, true) :: (x.1, false) :: l2.
Proof.
  unfold mover_cima_step. rewrite decide_False by lia.
  replace (S (length l1) - 1) with (length l1) by lia.
  rewrite (exchange_entries l1 l2 x y (length l1) eq_refl).
  unfold lb_selection_set, lb_selection_clear.
  rewrite lb_set_flag_middle. cbn [fst].
  replace (l1 ++ (y.1, true) :: (x.1, false) :: l2)
    with ((l1 ++ [(y.1, true)]) ++ (x.1, false) :: l2) by (by rewrite <-app_assoc).
  replace (S (length l1)) with (length (l1 ++ [(y.1, true)]))
    by (rewrite length_app; cbn; lia).
  by rewrite lb_set_flag_middle.
Qed.

(** A step of [mover_baixo] at the index after [l1], which is not the last,
    exchanges the two entries there; the one moved down is selected. *)
Lemma mover_baixo_step_swap (count : nat) (l1 l2 : Listbox) (x y : string * bool) :
  count = length (l1 ++ x :: y :: l2) →
  mover_baixo_step count (l1 ++ x :: y :: l2) (length l1)
  = l1 ++ (y.1, false) :: (x.1, true) :: l2.
Proof.
  intros ->. unfold mover_baixo_step.
  rewrite decide_False by (rewrite length_app; cbn; lia).
  replace (length l1 + 1) with (S (length l1)) by lia.
  rewrite (exchange_entries l1 l2 x y (length l1) eq_refl).
  unfold lb_selection_set, lb_selection_clear.
  replace (l1 ++ (y.1, false) :: (x.1, false) :: l2)
    with ((l1 ++ [(y.1, false)]) ++ (x.1, false) :: l2) by (by rewrite <-app_assoc).
  replace (S (length l1)) with (length (l1 ++ [(y.1, false)]))
    by (rewrite length_app; cbn; lia).
  rewrite (lb_set_flag_middle true (l1 ++ [(y.1, false)]) l2 (x.1, false)).
  cbn [fst]. rewrite <-app_assoc.
  apply (lb_set_flag_middle false l1 ((x.1, true) :: l2) (y.1, false)).
Qed.

Lemma foldl_step {A B : Type} (f : A → B → A) (a : A) (x : B) (l : list B) :
  foldl f a (x :: l) = foldl f (f a x) l.
Proof. done. Qed.

Lemma mover_cima_steps_block pre (s : string) block rest :
  foldl mover_cima_step (pre ++ (s, false) :: selected_entries block ++ rest)
    (seq (S (length pre)) (length block))
  = pre ++ selected_entries block ++ (s, false) :: rest.
Proof.
  revert pre. induction block as [|b block IH]; intros pre; [done|].
  change (selected_entries (b :: block)) with ((b, true) :: selected_entries block).
  change (seq (S (length pre)) (length (b :: block)))
    with (S (length pre) :: seq (S (S (length pre))) (length block)).
  change (((b, true) :: selected_entries block) ++ rest)
    with ((b, true) :: (selected_entries block ++ rest)).
  rewrite foldl_step.
  rewrite (mover_cima_step_swap pre (selected_entries block ++ rest) (s, false) (b, true)).
  cbn [fst].
  replace (pre ++ (b, true) :: (s, false) :: selected_entries block ++ rest)
    with ((pre ++ [(b, true)]) ++ (s, false) :: selected_entries block ++ rest)
    by (by rewrite <-app_assoc).
  replace (S (S (length pre))) with (S (length (pre ++ [(b, true)])))
    by (rewrite length_app; cbn; lia).
  rewrite IH. by rewrite <-app_assoc.
Qed.

Lemma mover_baixo_steps_block (count : nat) pre block (s : string) rest :
  count = length (pre ++ selected_entries block ++ (s, false) :: rest) →
  foldl (mover_baixo_step count) (pre ++ selected_entries block ++ (s, false) :: rest)
    (reverse (seq (length pre) (length block)))
  = pre ++ (s, false) :: selected_entries block ++ rest.
Proof.
  revert rest. induction block as [|b block IH] using rev_ind; intros rest Hcount; [done|].
  assert (Hlist : pre ++ selected_entries (block ++ [b]) ++ (s, false) :: rest
                  = (pre ++ selected_entries block) ++ (b, true) :: (s, false) :: rest).
  { unfold selected_entries. rewrite fmap_app. cbn. by rewrite <-!app_assoc. }
  assert (Hidx : reverse (seq (length pre) (length (block ++ [b])))
                 = length (pre ++ selected_entries block)
                   :: reverse (seq (length pre) (length block))).
  { rewrite length_app. cbn [length]. rewrite seq_app, reverse_app. cbn [seq].
    rewrite reverse_singleton. cbn [app]. f_equal.
    rewrite length_app. unfold selected_entries. by rewrite length_fmap. }
  rewrite Hlist in Hcount. rewrite Hlist, Hidx, foldl_step.
  rewrite (mover_baixo_step_swap count _ rest (b, true) (s, false) Hcount).
  cbn [fst]. rewrite <-app_assoc. rewrite (IH ((b, true) :: rest)).
  - unfold selected_entries. rewrite fmap_app. cbn. by rewrite <-!app_assoc.
  - rewrite Hcount. repeat (rewrite ?length_app; cbn [length]). lia.
Qed.

Lemma mover_cima_block_eq (pre : list string) (s : string) block (rest : list string) :
  mover_cima (unselected_entries pre ++ (s, false) :: selected_entries block
              ++ unselected_entries rest)
  = unselected_entries pre ++ selected_entries block ++ (s, false) :: unselected_entries rest.
Proof.
  unfold mover_cima, lb_curselection.
  rewrite curselection_from_unselected_app. cbn [curselection_from].
  rewrite curselection_from_selected_app, curselection_from_unselected, app_nil_r.
  replace (S (0 + length pre)) with (S (length (unselected_entries pre)))
    by (unfold unselected_entries; rewrite length_fmap; lia).
  apply mover_cima_steps_block.
Qed.

Lemma mover_baixo_block_eq (pre : list string) block (s : string) (rest : list string) :
  mover_baixo (unselected_entries pre ++ selected_entries block
               ++ (s, false) :: unselected_entries rest)
  = unselected_entries pre ++ (s, false) :: selected_entries block ++ unselected_entries rest.
Proof.
  unfold mover_baixo, lb_curselection, lb_size.
  rewrite curselection_from_unselected_app, curselection_from_selected_app.
  cbn [curselection_from].
  rewrite curselection_from_unselected, app_nil_r.
  replace (0 + length pre) with (length (unselected_entries pre))
    by (unfold unselected_entries; rewrite length_fmap; lia).
  by apply mover_baixo_steps_block.
Qed.

(** X7.  With one block of adjacent entries selected and an unselected entry
    just above it, [mover_cima] moves the block up by one: the entry above
    ends just below the block, the block stays selected, and nothing else
    moves. *)
Theorem mover_cima_moves_block_up (pre : list string) (s : string) block
    (rest : list string) :
  mover_cima (unselected_entries pre ++ (s, false) :: selected_entries block
              ++ unselected_entries rest)
  = unselected_entries pre ++ selected_entries block ++ (s, false) :: unselected_entries rest.
Proof. apply mover_cima_block_eq. Qed.

(** X8.  With one block of adjacent entries selected and an unselected entry
    just below it, [mover_baixo] moves the block down by one, keeps it
    selected, and moves nothing else. *)
Theorem mover_baixo_moves_block_down (pre : list string) block (s : string)
    (rest : list string) :
  mover_baixo (unselected_entries pre ++ selected_entries block
               ++ (s, false) :: unselected_entries rest)
  = unselected_entries pre ++ (s, false) :: selected_entries block ++ unselected_entries rest.
Proof. apply mover_baixo_block_eq. Qed.


(** X10.  When the selected block starts at the first entry and has two
    entries or more, [mover_cima] does not leave it in place: the first
    entry is skipped, the later ones move above it, and it ends below the
    block, no longer selected. *)
Theorem mover_cima_block_at_top (a b : string) block (rest : list string) :
  mover_cima (selected_entries (a :: b :: block) ++ unselected_entries rest)
  = selected_entries (b :: block) ++ (a, false) :: unselected_entries rest.
Proof.
  unfold mover_cima, lb_curselection.
  rewrite curselection_from_selected_app, curselection_from_unselected, app_nil_r.
  change (selected_entries (a :: b :: block))
    with ((a, true) :: (b, true) :: selected_entries block).
  change (seq 0 (length (a :: b :: block))) with (0 :: 1 :: seq 2 (length block)).
  rewrite !foldl_step.
  assert (H0 : ∀ lb : Listbox, mover_cima_step lb 0 = lb) by done.
  rewrite H0.
  assert (Hswap :
    mover_cima_step
      ((a, true) :: (b, true) :: (selected_entries block ++ unselected_entries rest)) 1
    = (b, true) :: (a, false) :: (selected_entries block ++ unselected_entries rest))
    by apply (mover_cima_step_swap [] _ (a, true) (b, true)).
  change (((a, true) :: (b, true) :: selected_entries block) ++ unselected_entries rest)
    with ((a, true) :: (b, true) :: (selected_entries block ++ unselected_entries rest)).
  rewrite Hswap.
  apply (mover_cima_steps_block [(b, true)] a block (unselected_entries rest)).
Qed.

(** X11.  When the selected block ends at the last entry and has two entries
    or more, [mover_baixo] does not leave it in place: the last entry is
    skipped, the earlier ones move below it, and it ends above the block, no
    longer selected. *)
Theorem mover_baixo_block_at_bottom (pre : list string) block (b z : string) :
  mover_baixo (unselected_entries pre ++ selected_entries (block ++ [b; z]))
  = unselected_entries pre ++ (z, false) :: selected_entries (block ++ [b]).
Proof.
  unfold mover_baixo, lb_curselection, lb_size.
  set (upre := unselected_entries pre).
  set (sel := selected_entries block).
  assert (Hlist : upre ++ selected_entries (block ++ [b; z])
                  = (upre ++ sel) ++ (b, true) :: (z, true) :: []).
  { unfold sel, selected_entries. rewrite fmap_app. cbn. by rewrite <-app_assoc. }
  assert (Hlen : length (upre ++ sel) = length pre + length block).
  { unfold upre, sel, unselected_entries, selected_entries.
    by rewrite length_app, !length_fmap. }
  assert (Hcs : curselection_from 0 (upre ++ selected_entries (block ++ [b; z]))
                = seq (length pre) (length block)
                  ++ [length (upre ++ sel); S (length (upre ++ sel))]).
  { unfold upre. rewrite curselection_from_unselected_app.
    rewrite <-(app_nil_r (selected_entries (block ++ [b; z]))).
    rewrite curselection_from_selected_app. cbn [curselection_from].
    rewrite app_nil_r, length_app. cbn [length].
    rewrite seq_app. cbn [seq]. fold upre. rewrite Hlen. done. }
  rewrite Hcs, reverse_app.
  change (reverse [length (upre ++ sel); S (length (upre ++ sel))]
          ++ reverse (seq (length pre) (length block)))
    with (S (length (upre ++ sel)) :: length (upre ++ sel)
          :: reverse (seq (length pre) (length block))).
  rewrite !foldl_step. rewrite Hlist.
  set (count := length ((upre ++ sel) ++ [(b, true); (z, true)])).
  assert (Hcount : count = length pre + length block + 2).
  { unfold count. rewrite length_app, Hlen. cbn. lia. }
  assert (Hskip : mover_baixo_step count ((upre ++ sel) ++ [(b, true); (z, true)])
                    (S (length (upre ++ sel)))
                  = (upre ++ sel) ++ [(b, true); (z, true)]).
  { unfold mover_baixo_step. rewrite decide_True by lia. done. }
  rewrite Hskip.
  rewrite (mover_baixo_step_swap count (upre ++ sel) [] (b, true) (z, true) eq_refl).
  cbn [fst]. rewrite <-app_assoc.
  replace (length pre) with (length upre)
    by (unfold upre, unselected_entries; by rewrite length_fmap).
  unfold sel.
  rewrite (mover_baixo_steps_block count upre block z [(b, true)]).
  - unfold selected_entries. by rewrite fmap_app.
  - rewrite Hcount. repeat (rewrite ?length_app; cbn [length]).
    unfold upre, unselected_entries, selected_entries. rewrite !length_fmap. lia.
Qed.

Lemma curselection_from_S i lb :
  curselection_from (S i) lb = S <$> curselection_from i lb.
Proof.
  revert i. induction lb as [|[s b] lb IH]; intros i; cbn; [done|].
  rewrite IH. by destruct b.
Qed.

Lemma foldl_delete_cons (e : string * bool) lb (indices : list nat) :
  foldl (λ lb index, lb_delete index index lb) (e :: lb) (S <$> indices)
  = e :: foldl (λ lb index, lb_delete index index lb) lb indices.
Proof.
  revert lb. induction indices as [|j indices IH]; intros lb; [done|].
  cbn [fmap list_fmap foldl].
  assert (Hdel : lb_delete (S j) (S j) (e :: lb) = e :: lb_delete j j lb).
  { unfold lb_delete. by rewrite !decide_True by lia. }
  rewrite Hdel. apply IH.
Qed.

Lemma remover_colunas_filter lb :
  remover_colunas lb = filter (λ e, e.2 = false) lb.
Proof.
  unfold remover_colunas, lb_curselection.
  induction lb as [|[s b] lb IH]; [done|].
  cbn [curselection_from]. rewrite curselection_from_S.
  destruct b.
  - rewrite reverse_cons, <-fmap_reverse, foldl_app, foldl_delete_cons, IH.
    cbn [foldl]. rewrite filter_cons_False by done.
    unfold lb_delete. rewrite decide_True by lia. done.
  - rewrite <-fmap_reverse, foldl_delete_cons, IH.
    by rewrite filter_cons_True by done.
Qed.

Lemma curselection_from_none i lb :
  Forall (λ e, e.2 = false) lb → curselection_from i lb = [].
Proof.
  intros Hall. revert i. induction Hall as [|[s b] lb Hb _ IH]; intros i; cbn; [done|].
  cbn in Hb. subst b. apply IH.
Qed.

(** X12.  [remover_colunas] deletes exactly the selected entries: what is
    left is the unselected entries in their order, and none is selected. *)
Theorem remover_colunas_removes_selected (lb : Listbox) :
  remover_colunas lb = filter (λ e, e.2 = false) lb ∧
  lb_curselection (remover_colunas lb) = [].
Proof.
  split; [apply remover_colunas_filter|].
  rewrite remover_colunas_filter. apply curselection_from_none.
  apply Forall_forall. by intros e [? _]%list_elem_of_filter.
Qed.

Lemma _carregar_colunas_unselected lb (colunas : list string) :
  _carregar_colunas lb colunas = unselected_entries colunas.
Proof.
  unfold _carregar_colunas.
  assert (Hempty : lb_delete 0 (lb_size lb) lb = []).
  { unfold lb_delete, lb_size. rewrite decide_True by lia. cbn.
    destruct lb; [done|]. cbn. apply drop_ge. lia. }
  rewrite Hempty.
  assert (Hgen : ∀ lb0, foldl (λ lb col, lb_insert (lb_size lb) col lb) lb0 colunas
                        = lb0 ++ unselected_entries colunas).
  { induction colunas as [|c colunas IH]; intros lb0; cbn; [by rewrite app_nil_r|].
    rewrite IH. unfold lb_insert, lb_size.
    rewrite take_ge, drop_all by done. by rewrite <-app_assoc. }
  by rewrite Hgen.
Qed.

(** X13.  [_carregar_colunas] replaces whatever the listbox held: afterwards
    it holds the given columns in their order, none selected. *)
Theorem _carregar_colunas_replaces (lb : Listbox) (colunas : list string) :
  _carregar_colunas lb colunas = unselected_entries colunas ∧
  lb_get_all (_carregar_colunas lb colunas) = colunas ∧
  lb_curselection (_carregar_colunas lb colunas) = [].
Proof.
  rewrite _carregar_colunas_unselected. split_and!; [done| |].
  - unfold lb_get_all, unselected_entries. rewrite <-list_fmap_compose.
    by rewrite list_fmap_id.
  - apply curselection_from_unselected.
Qed.

End ListboxMore.

(** * Further properties of the handlers *)

Section AppMore.

Context (read_csv : string → read_csv_kwargs → result DataFrame).
Context (read_excel : string → result DataFrame).
Context (splitext : string → string * string) (lower : string → string).
Context (int : string → option Z) (linesep : string).
Context (limpar_espacos_em_colunas : DataFrame → list string → stage_outcome).
Context (filtrar_primeira_coluna_por_tamanho : DataFrame → string → Z → stage_outcome).
Context (remover_duplicatas : DataFrame → string → stage_outcome).

Local Abbreviation gerar :=
  (gerar_txt int linesep limpar_espacos_em_colunas
     filtrar_primeira_coluna_por_tamanho remover_duplicatas).
Local Abbreviation pipeline :=
  (limpar_pipeline limpar_espacos_em_colunas
     filtrar_primeira_coluna_por_tamanho remover_duplicatas).
Local Abbreviation selecionar := (selecionar_arquivo read_csv read_excel splitext lower).
Local Abbreviation ler := (ler_arquivo read_csv read_excel splitext lower).
Local Abbreviation act :=
  (user_act read_csv read_excel splitext lower int linesep limpar_espacos_em_colunas
     filtrar_primeira_coluna_por_tamanho remover_duplicatas).
Local Abbreviation sessao :=
  (session read_csv read_excel splitext lower int linesep limpar_espacos_em_colunas
     filtrar_primeira_coluna_por_tamanho remover_duplicatas).

(** The three outcomes of the cleaning calls on the frame [selected]. *)
Local Abbreviation outcome1 selected colunas :=
  (limpar_espacos_em_colunas selected colunas).
Local Abbreviation outcome2 selected colunas primeira_col min_len :=
  (filtrar_primeira_coluna_por_tamanho
     (stage_value (outcome1 selected colunas)) primeira_col min_len).
Local Abbreviation outcome3 selected colunas primeira_col min_len :=
  (remover_duplicatas
     (stage_value (outcome2 selected colunas primeira_col min_len)) primeira_col).
Local Abbreviation exported_app a selected colunas primeira_col min_len :=
  (_atualizar_tooltip
     (with_counters a
        (affected (outcome1 selected colunas))
        (affected (outcome2 selected colunas primeira_col min_len))
        (affected (outcome3 selected colunas primeira_col min_len)))).
Local Abbreviation cleaning_events selected colunas primeira_col min_len :=
  [called_limpar_espacos_em_colunas selected colunas;
   called_filtrar_primeira_coluna_por_tamanho
     (stage_value (outcome1 selected colunas)) primeira_col min_len;
   called_remover_duplicatas
     (stage_value (outcome2 selected colunas primeira_col min_len)) primeira_col].

Lemma limpar_pipeline_app (a : UnifiedApp) (st : Store) (l_copy : nat)
    (colunas : list string) (primeira_col : string) (min_len : Z) :
  l_copy < length st →
  (pipeline a st l_copy colunas primeira_col min_len).1.1.1
  = exported_app a (st !!! l_copy) colunas primeira_col min_len.
Proof.
  intros Hl. unfold limpar_pipeline. cbn [fst].
  destruct (call_stage_spec (limpar_espacos_em_colunas (st !!! l_copy) colunas)
              st l_copy Hl) as (Hv1 & Hl1 & _).
  rewrite Hv1.
  destruct (call_stage_spec
              (filtrar_primeira_coluna_por_tamanho
                 (stage_value (limpar_espacos_em_colunas (st !!! l_copy) colunas))
                 primeira_col min_len) _ _ Hl1) as (Hv2 & _ & _).
  by rewrite Hv2.
Qed.

(** An export run that passes the checks, in full. *)
Lemma gerar_txt_valid_full (w : World) (caminho_save : string)
    (write_error : option exception) (l : nat) (primeira_col : string)
    (rest : list string) (min_len : Z) (selected : DataFrame) :
  df (app w) = Some l →
  lb_get_all (listbox_colunas (app w)) = primeira_col :: rest →
  int (spin_min_len (app w)) = Some min_len →
  (1 ≤ min_len)%Z →
  getitem (store w !!! l) (primeira_col :: rest) = Returned selected →
  ∃ st' l',
    gerar w caminho_save write_error =
      salvar linesep (exported_app (app w) selected (primeira_col :: rest) primeira_col min_len)
        st' l'
        (events w ++ cleaning_events selected (primeira_col :: rest) primeira_col min_len)
        caminho_save write_error ∧
    st' !!! l' = stage_value (outcome3 selected (primeira_col :: rest) primeira_col min_len) ∧
    take (length (store w)) st' = store w.
Proof.
  intros Hdf Hcols Hint Hmin Hget.
  unfold gerar_txt. rewrite Hdf, Hcols, Hint.
  rewrite decide_False by lia. rewrite Hget.
  set (st1 := store w ++ [selected]).
  set (st2 := st1 ++ [st1 !!! length (store w)]).
  assert (Hcopy : st2 !!! length st1 = selected).
  { unfold st2. rewrite list_lookup_total_middle by done.
    unfold st1. by rewrite list_lookup_total_middle. }
  assert (Hlt : length st1 < length st2).
  { unfold st2. rewrite length_app. cbn. lia. }
  pose proof (limpar_pipeline_app (app w) st2 (length st1) (primeira_col :: rest)
                primeira_col min_len Hlt) as Happ.
  destruct (limpar_pipeline_spec limpar_espacos_em_colunas
              filtrar_primeira_coluna_por_tamanho remover_duplicatas
              (app w) st2 (length st1) (primeira_col :: rest) primeira_col min_len Hlt)
    as (a' & st' & l' & Hp & Hv & Hframe & _).
  rewrite Hp in Happ. cbn [fst] in Happ. rewrite Hcopy in Happ, Hp, Hv. subst a'.
  rewrite Hp. exists st', l'. split_and!; try done.
  rewrite (Hframe (length (store w))).
  - unfold st2, st1. rewrite <-app_assoc. apply take_app_length.
  - unfold st1. rewrite length_app. lia.
Qed.

Lemma salvar_events (a : UnifiedApp) (st : Store) (l : nat) (evs : list event)
    (caminho_save : string) (write_error : option exception) :
  app (salvar linesep a st l evs caminho_save write_error) = a ∧
  store (salvar linesep a st l evs caminho_save write_error) = st ∧
  ∃ tail, events (salvar linesep a st l evs caminho_save write_error) = evs ++ tail ∧
          ∀ e, uncaught e ∉ tail.
Proof.
  unfold salvar. case_decide.
  - split_and!; try done. exists []. rewrite app_nil_r. split; [done|].
    intros e Hin. by apply elem_of_nil in Hin.
  - destruct write_error as [e|]; cbn; (split_and!; try done); eexists; (split; [done|]);
      intros e' Hin; repeat (apply elem_of_cons in Hin as [?|Hin]; [done|]);
      by apply elem_of_nil in Hin.
Qed.

(** The three ways an export run can end. *)
Lemma gerar_txt_cases (w : World) (caminho_save : string) (write_error : option exception) :
  (∃ message, gerar w caminho_save write_error = aviso w message) ∨
  (∃ l e, df (app w) = Some l ∧
          getitem (store w !!! l) (lb_get_all (listbox_colunas (app w))) = Raised e ∧
          gerar w caminho_save write_error =
            {| app := app w; store := store w; events := events w ++ [uncaught e] |}) ∨
  (∃ l selected primeira_col rest min_len tail,
     df (app w) = Some l ∧
     lb_get_all (listbox_colunas (app w)) = primeira_col :: rest ∧
     int (spin_min_len (app w)) = Some min_len ∧
     (1 ≤ min_len)%Z ∧
     getitem (store w !!! l) (primeira_col :: rest) = Returned selected ∧
     app (gerar w caminho_save write_error)
       = exported_app (app w) selected (primeira_col :: rest) primeira_col min_len ∧
     take (length (store w)) (store (gerar w caminho_save write_error)) = store w ∧
     events (gerar w caminho_save write_error)
       = events w ++ cleaning_events selected (primeira_col :: rest) primeira_col min_len
         ++ tail ∧
     ∀ e, uncaught e ∉ tail).
Proof.
  destruct (df (app w)) as [l|] eqn:Hdf;
    [|left; unfold gerar_txt; rewrite Hdf; by eexists].
  destruct (lb_get_all (listbox_colunas (app w))) as [|c cs] eqn:Hcols;
    [left; unfold gerar_txt; rewrite Hdf, Hcols; by eexists|].
  destruct (int (spin_min_len (app w))) as [min_len|] eqn:Hint;
    [|left; unfold gerar_txt; rewrite Hdf, Hcols, Hint; by eexists].
  destruct (decide (min_len < 1)%Z) as [Hlt|Hge];
    [left; unfold gerar_txt; rewrite Hdf, Hcols, Hint, decide_True by done; by eexists|].
  destruct (getitem (store w !!! l) (c :: cs)) as [selected|e] eqn:Hget.
  - right; right.
    destruct (gerar_txt_valid_full w caminho_save write_error l c cs min_len selected)
      as (st' & l' & Hrun & _ & Hframe); [done|done|done|lia|done|].
    match type of Hrun with
    | _ = salvar _ ?a ?st ?l0 ?evs ?cs0 ?we =>
      destruct (salvar_events a st l0 evs cs0 we) as (Happ & Hst & tail & Hev & Hno)
    end.
    exists l, selected, c, cs, min_len, tail.
    rewrite Hrun, Happ, Hst, Hev, <-app_assoc. split_and!; try done. lia.
  - right; left. exists l, e. split_and!; try done.
    unfold gerar_txt. by rewrite Hdf, Hcols, Hint, decide_False, Hget by done.
Qed.

(** X14.  An export run changes, of the application, at most the three
    counters and the tooltip: the data set reference, the listbox, the
    spinbox, the label and the icon are as before. *)
Theorem export_changes_only_counters (w : World) (caminho_save : string)
    (write_error : option exception) :
  let a' := app (gerar w caminho_save write_error) in
  df a' = df (app w) ∧
  listbox_colunas a' = listbox_colunas (app w) ∧
  spin_min_len a' = spin_min_len (app w) ∧
  label_resultado a' = label_resultado (app w) ∧
  icone_info_packed a' = icone_info_packed (app w).
Proof.
  cbn zeta.
  destruct (gerar_txt_cases w caminho_save write_error)
    as [[message ->]|[(l & e & _ & _ & ->)|(l & sel & c & cs & n & tail & _ & _ & _ & _ & _ & -> & _)]];
    done.
Qed.

(** X15.  When the save dialog is cancelled on a run that passes the checks,
    the cleaning has already been done: the three counters and the tooltip
    are updated, the three cleaning calls are the only events, and no file
    is written and no message shown. *)
Theorem export_cancelled_still_cleans (w : World) (write_error : option exception)
    (l : nat) (primeira_col : string) (rest : list string) (min_len : Z)
    (selected : DataFrame) :
  df (app w) = Some l →
  lb_get_all (listbox_colunas (app w)) = primeira_col :: rest →
  int (spin_min_len (app w)) = Some min_len →
  (1 ≤ min_len)%Z →
  getitem (store w !!! l) (primeira_col :: rest) = Returned selected →
  let w' := gerar w "" write_error in
  app w' = exported_app (app w) selected (primeira_col :: rest) primeira_col min_len ∧
  events w' = events w ++ cleaning_events selected (primeira_col :: rest) primeira_col min_len.
Proof.
  intros Hdf Hcols Hint Hmin Hget.
  destruct (gerar_txt_valid_full w "" write_error l primeira_col rest min_len selected
              Hdf Hcols Hint Hmin Hget) as (st' & l' & Hrun & _).
  cbn zeta. rewrite Hrun. unfold salvar. by rewrite decide_True by done.
Qed.

(** X16.  When the write fails on a run that passes the checks, the error is
    shown with the text of the exception, no file is recorded as written
    and no success message is shown; the counters are updated all the same. *)
Theorem export_write_failure (w : World) (caminho_save : string) (e : exception)
    (l : nat) (primeira_col : string) (rest : list string) (min_len : Z)
    (selected : DataFrame) :
  df (app w) = Some l →
  lb_get_all (listbox_colunas (app w)) = primeira_col :: rest →
  int (spin_min_len (app w)) = Some min_len →
  (1 ≤ min_len)%Z →
  getitem (store w !!! l) (primeira_col :: rest) = Returned selected →
  caminho_save ≠ "" →
  let w' := gerar w caminho_save (Some e) in
  app w' = exported_app (app w) selected (primeira_col :: rest) primeira_col min_len ∧
  events w' = events w
    ++ cleaning_events selected (primeira_col :: rest) primeira_col min_len
    ++ [called_to_csv
          (stage_value (outcome3 selected (primeira_col :: rest) primeira_col min_len))
          caminho_save ";" false "utf-8-sig";
        showerror "Erro" ("Falha ao salvar o arquivo:" ++ newline ++ exc_str e)%string].
Proof.
  intros Hdf Hcols Hint Hmin Hget Hpath.
  destruct (gerar_txt_valid_full w caminho_save (Some e) l primeira_col rest min_len
              selected Hdf Hcols Hint Hmin Hget) as (st' & l' & Hrun & Hv & _).
  cbn zeta. rewrite Hrun. unfold salvar. rewrite decide_False by done. cbn.
  split; [done|]. by rewrite Hv, <-app_assoc.
Qed.

Lemma exported_app_twice (a : UnifiedApp) (selected : DataFrame) (colunas : list string)
    (primeira_col : string) (min_len : Z) :
  exported_app (exported_app a selected colunas primeira_col min_len)
    selected colunas primeira_col min_len
  = exported_app a selected colunas primeira_col min_len.
Proof. reflexivity. Qed.

(** X17.  The counters are recomputed by each export, not accumulated: in a
    world whose data set reference is in the store, a second export run
    right after a first leaves the application exactly as the first left
    it. *)
Theorem export_twice_same_counters (w : World) (caminho_save1 caminho_save2 : string)
    (write_error1 write_error2 : option exception) :
  (∀ l, df (app w) = Some l → l < length (store w)) →
  app (gerar (gerar w caminho_save1 write_error1) caminho_save2 write_error2)
  = app (gerar w caminho_save1 write_error1).
Proof.
  intros Hwf.
  destruct (gerar_txt_cases w caminho_save1 write_error1)
    as [[message Hrun]|[(l & e & Hdf & Hget & Hrun)|
        (l & sel & c & cs & n & tail & Hdf & Hcols & Hint & Hmin & Hget & Happ & Hframe & _)]].
  - rewrite Hrun.
    destruct (gerar_txt_cases (aviso w message) caminho_save2 write_error2)
      as [[message' ->]|[(l & e & Hdf & Hget & ->)|
          (l & sel & c & cs & n & tail & Hdf & Hcols & Hint & Hmin & Hget & _)]]; [done|done|].
    exfalso. cbn in Hdf, Hcols, Hint, Hget.
    unfold gerar_txt in Hrun. rewrite Hdf, Hcols, Hint, decide_False, Hget in Hrun by lia.
    apply (f_equal store) in Hrun. revert Hrun.
    match goal with
    | |- context [limpar_pipeline ?f1 ?f2 ?f3 ?a ?st ?l0 ?cols ?pc ?ml] =>
      destruct (limpar_pipeline f1 f2 f3 a st l0 cols pc ml) as [[[a1 st1] l1] calls1] eqn:Hp
    end.
    match goal with
    | |- context [salvar _ ?a ?st ?l0 ?evs ?cs0 ?we] =>
      destruct (salvar_events a st l0 evs cs0 we) as (_ & -> & _)
    end.
    cbn. intros Hst.
    pose proof (limpar_pipeline_spec limpar_espacos_em_colunas
                  filtrar_primeira_coluna_por_tamanho remover_duplicatas
                  (app w) ((store w ++ [sel]) ++ [(store w ++ [sel]) !!! length (store w)])
                  (length (store w ++ [sel])) (c :: cs) c n) as Hspec.
    destruct Hspec as (a2 & st2 & l2 & Hp2 & _ & Hfr & _);
      [rewrite !length_app; cbn; lia|].
    rewrite Hp in Hp2. injection Hp2 as <- <- <- _.
    specialize (Hfr (length (store w ++ [sel])) (le_n _)).
    apply (f_equal length) in Hfr. rewrite Hst in Hfr.
    rewrite !length_take, !length_app in Hfr. cbn in Hfr. lia.
  - rewrite Hrun.
    set (w1 := {| app := app w; store := store w; events := events w ++ [uncaught e] |}).
    destruct (gerar_txt_cases w1 caminho_save2 write_error2)
      as [[message' ->]|[(l' & e' & _ & _ & ->)|
          (l' & sel & c & cs & n & tail & Hdf' & Hcols' & _ & _ & Hget' & _)]]; [done|done|].
    exfalso. cbn in Hdf', Hcols', Hget'. rewrite Hdf in Hdf'. injection Hdf' as <-.
    rewrite Hcols' in Hget. by rewrite Hget in Hget'.
  - set (w1 := gerar w caminho_save1 write_error1) in *.
    assert (Hsame : store w1 !!! l = store w !!! l).
    { transitivity (take (length (store w)) (store w1) !!! l); [|by rewrite Hframe].
      symmetry. apply lookup_total_take_lt. by apply Hwf. }
    destruct (gerar_txt_valid_full w1 caminho_save2 write_error2 l c cs n sel)
      as (st' & l' & Hrun2 & _).
    + by rewrite Happ.
    + by rewrite Happ.
    + by rewrite Happ.
    + done.
    + by rewrite Hsame.
    + rewrite Hrun2.
      match goal with
      | |- context [salvar _ ?a ?st ?l0 ?evs ?cs0 ?we] =>
        destruct (salvar_events a st l0 evs cs0 we) as (-> & _)
      end.
      rewrite Happ. apply exported_app_twice.
Qed.

(** ** The window over a whole session *)

Section Sessions.

Hypothesis read_csv_columns :
  ∀ p kw d, read_csv p kw = Returned d → NoDup (columns d).
Hypothesis read_excel_columns :
  ∀ p d, read_excel p = Returned d → NoDup (columns d).








End Sessions.

End AppMore.

(** * Further properties of the load *)

Section LoadMore.

Context (read_csv : string → read_csv_kwargs → result DataFrame).
Context (read_excel : string → result DataFrame).
Context (splitext : string → string * string) (lower : string → string).

Local Abbreviation selecionar := (selecionar_arquivo read_csv read_excel splitext lower).

(** X18.  A file whose extension is none of .xls, .xlsx, .csv and .txt is
    rejected without any read: the error is shown, and the application, the
    store and the loaded data set are as before. *)
Theorem unsupported_extension_rejected (w : World) (caminho_arquivo : string) :
  caminho_arquivo ≠ "" →
  lower (splitext caminho_arquivo).2 ∉ [".xls"; ".xlsx"; ".csv"; ".txt"] →
  selecionar w caminho_arquivo =
    {| app := app w; store := store w;
       events := events w ++
         [showerror "Erro"
            ("Falha ao ler o arquivo:" ++ newline ++ "Tipo de arquivo não suportado.")%string] |}.
Proof.
  intros Hpath Hext. unfold selecionar_arquivo, ler_arquivo.
  rewrite !elem_of_cons, elem_of_nil in Hext.
  rewrite decide_False by done.
  rewrite decide_False by (rewrite !elem_of_cons, elem_of_nil; tauto).
  rewrite decide_False by (rewrite !elem_of_cons, elem_of_nil; tauto).
  done.
Qed.


End LoadMore.

(** * Closed instances *)

(** The claim C3 as the specification states it fails: the first combination
    of the table that parses is the semicolon with "latin1", and the reader
    returns the parse of the comma, since the error of the semicolon under
    "utf-8" is not a decoding error. *)
Lemma reader_not_first_of_table :
  tentar_leitura_csv_variavel_sep read_csv_parser_error "dados.csv"
    = Returned frame_two_columns ∧
  read_by_table read_csv_parser_error "dados.csv" = Returned frame_one_column ∧
  tentar_leitura_csv_variavel_sep read_csv_parser_error "dados.csv"
    ≠ read_by_table read_csv_parser_error "dados.csv".
Proof. split_and!; [reflexivity..|discriminate]. Qed.

Lemma reader_comma_latin1_fallback_witness :
  tentar_leitura_csv_variavel_sep read_csv_comma_latin1 "dados.csv"
    = Returned frame_two_columns ∧
  last (tentar_leitura_trace read_csv_comma_latin1 "dados.csv").1
    = Some (kwargs "," "latin1") ∧
  ∀ d', tentar_leitura_csv_variavel_sep read_csv_comma_latin1 "dados.csv" = Returned d' →
        length (columns d') = length (columns frame_two_columns).
Proof.
  apply (reader_comma_latin1_fallback read_csv_comma_latin1 "dados.csv"
           "invalid continuation byte" frame_two_columns).
  - exact I.
  - reflexivity.
  - reflexivity.
Defined.

Lemma reader_raises_when_nothing_parses_witness :
  tentar_leitura_csv_variavel_sep read_csv_unreadable "dados.csv"
    = Raised (Exception unreadable_msg) ∧
  ∀ d, tentar_leitura_csv_variavel_sep read_csv_unreadable "dados.csv" ≠ Returned d.
Proof.
  apply (reader_raises_when_nothing_parses read_csv_unreadable "dados.csv").
  intros s enc _. by eexists.
Defined.

Lemma stages_in_fixed_order_witness :
  let w' := gerar_txt_sample (world_loaded "4" selection_A_B) "out.txt" None in
  getitem frame_scenario_1 ["A"; "B"] = Returned frame_selected_A_B ∧
  total_espacos_removidos (app w') = 1 ∧
  linhas_removidas_por_tamanho (app w') = 0 ∧
  total_duplicatas_removidas (app w') = 0.
Proof.
  assert (Hget : getitem frame_scenario_1 ["A"; "B"] = Returned frame_selected_A_B)
    by (vm_compute; reflexivity).
  split; [exact Hget|].
  pose proof (stages_in_fixed_order Lib.int newline Logic.limpar_espacos_em_colunas
                Logic.filtrar_primeira_coluna_por_tamanho Logic.remover_duplicatas
                (world_loaded "4" selection_A_B) "out.txt" None
                0 "A" ["B"] 4%Z frame_selected_A_B) as H.
  destruct H as (_ & _ & H1 & H2 & H3);
    [reflexivity|reflexivity|reflexivity|lia|exact Hget|].
  unfold gerar_txt_sample. rewrite H1, H2, H3. vm_compute. done.
Defined.

Lemma invalid_export_rejected_witness :
  let w := world_loaded "0" selection_A_B in
  let w' := gerar_txt_sample w "out.txt" None in
  Lib.int "0" = Some 0%Z ∧
  app w' = app w ∧ store w' = store w ∧
  (∃ message, events w' = events w ++ [showwarning "Aviso" message]) ∧
  cleaning_calls (events w') = cleaning_calls (events w).
Proof.
  split; [reflexivity|].
  apply (invalid_export_rejected Lib.int newline Logic.limpar_espacos_em_colunas
           Logic.filtrar_primeira_coluna_por_tamanho Logic.remover_duplicatas
           (world_loaded "0" selection_A_B) "out.txt" None).
  right; right. vm_compute. reflexivity.
Defined.

Lemma exported_file_format_witness :
  let w := world_loaded "4" selection_A_B in
  let w' := gerar_txt_sample w "out.txt" None in
  ∃ calls final info,
    events w' = events w ++ calls ++
      [called_to_csv final "out.txt" ";" false "utf-8-sig";
       file_written "out.txt" (expected_file newline ["A"; "B"] (rows final));
       showinfo "Sucesso" info] ∧
    cleaning_calls calls = calls ∧
    columns final = ["A"; "B"] ∧
    length (csv_lines final ";" false) = S (length (rows final)).
Proof.
  apply (exported_file_format Lib.int newline Logic.limpar_espacos_em_colunas
           Logic.filtrar_primeira_coluna_por_tamanho Logic.remover_duplicatas
           (world_loaded "4" selection_A_B) "out.txt"
           0 "A" ["B"] 4%Z frame_selected_A_B).
  - intros d cs. reflexivity.
  - intros d c n. reflexivity.
  - intros d c. reflexivity.
  - reflexivity.
  - reflexivity.
  - reflexivity.
  - lia.
  - vm_compute. reflexivity.
  - discriminate.
Defined.

Lemma selection_stays_valid_witness :
  valid_selection ["A"; "B"; "C"] selection_A_B ∧
  lb_get_all (mover_cima selection_A_B) = ["B"; "A"] ∧
  valid_selection ["A"; "B"; "C"] (mover_cima selection_A_B) ∧
  valid_selection ["A"; "B"; "C"] (remover_colunas selection_A_B).
Proof.
  assert (Hvalid : valid_selection ["A"; "B"; "C"] selection_A_B).
  { split; by apply (bool_decide_unpack _). }
  destruct (selection_stays_valid ["A"; "B"; "C"] selection_A_B Hvalid)
    as (_ & _ & _ & Hc & _ & Hr & _).
  split_and!; [exact Hvalid|reflexivity|exact Hc|exact Hr].
Defined.

(** ** The model on sample inputs *)

(** When the semicolon parses under "latin1", its single column is what the
    reader returns, whatever the comma would give. *)
Example reader_semicolon_first :
  tentar_leitura_trace read_csv_all_latin1 "dados.csv"
  = ([kwargs ";" "utf-8"; kwargs ";" "latin1"], Returned frame_one_column).
Proof. reflexivity. Qed.

Example mover_cima_sample :
  mover_cima [("a", false); ("b", true); ("c", false)]
  = [("b", true); ("a", false); ("c", false)].
Proof. reflexivity. Qed.

Example mover_baixo_sample :
  mover_baixo [("a", true); ("b", true); ("c", false)]
  = [("c", false); ("a", true); ("b", true)].
Proof. reflexivity. Qed.

Example remover_colunas_sample :
  remover_colunas [("a", true); ("b", false); ("c", true)] = [("b", false)].
Proof. reflexivity. Qed.

(** Scenario 1 of the specification: one cell cleaned, no row removed. *)
Example scenario_1_file :
  let w' := gerar_txt_sample (world_loaded "4" selection_A_B) "out.txt" None in
  last (events w') = Some (showinfo "Sucesso"
    ("Arquivo salvo em:" ++ newline ++ "out.txt" ++ newline
     ++ "Linhas removidas por tamanho: 0")%string) ∧
  file_written "out.txt"
    (bom ++ "A;B" ++ newline ++ "12 34;x" ++ newline ++ "1234;y" ++ newline)%string
    ∈ events w'.
Proof.
  split; [vm_compute; reflexivity|].
  vm_compute. do 4 right. left.
Qed.

(** A failed read leaves the loaded world as it was, but for the error shown. *)
Example failed_load_sample :
  let w := world_loaded "4" selection_A_B in
  let w' := selecionar_arquivo_sample read_csv_unreadable w "novo.csv" in
  app w' = app w ∧ store w' = store w ∧
  last (events w') = Some (showerror "Erro"
    ("Falha ao ler o arquivo:" ++ newline ++ unreadable_msg)%string).
Proof. split_and!; vm_compute; reflexivity. Qed.

(** ** Instances of the further properties *)

Lemma reader_raises_only_its_own_witness :
  tentar_leitura_csv_variavel_sep read_csv_unreadable "dados.csv"
    = Raised (Exception unreadable_msg) ∧
  Exception unreadable_msg = Exception unreadable_msg.
Proof.
  split; [reflexivity|].
  apply (reader_raises_only_its_own read_csv_unreadable "dados.csv"). reflexivity.
Defined.

Lemma reader_tries_later_only_after_failure_witness :
  kwargs "," "latin1" ∈ (tentar_leitura_trace read_csv_comma_latin1 "dados.csv").1 ∧
  sep_fails read_csv_comma_latin1 "dados.csv" ";" ∧
  ∃ m, read_csv_comma_latin1 "dados.csv" (kwargs "," "utf-8") = Raised (UnicodeDecodeError m).
Proof.
  assert (Hin : kwargs "," "latin1"
                ∈ (tentar_leitura_trace read_csv_comma_latin1 "dados.csv").1).
  { vm_compute. do 3 right. left. }
  destruct (reader_tries_later_only_after_failure read_csv_comma_latin1 "dados.csv"
              (kwargs "," "latin1") Hin) as (Hcomma & _ & Hlatin).
  split_and!; [exact Hin|by apply Hcomma|by apply Hlatin].
Defined.

Lemma reader_is_retry_table_witness :
  tentar_leitura_csv_variavel_sep read_csv_unreadable "dados.csv"
  = read_by_table read_csv_unreadable "dados.csv".
Proof.
  apply (reader_is_retry_table read_csv_unreadable "dados.csv").
  intros s e _ _ _. by eexists.
Defined.

Lemma export_cancelled_still_cleans_witness :
  let w' := gerar_txt_sample (world_loaded "4" selection_A_B) "" None in
  total_espacos_removidos (app w') = 1 ∧ length (events w') = 3.
Proof.
  destruct (export_cancelled_still_cleans Lib.int newline Logic.limpar_espacos_em_colunas
              Logic.filtrar_primeira_coluna_por_tamanho Logic.remover_duplicatas
              (world_loaded "4" selection_A_B) None 0 "A" ["B"] 4%Z frame_selected_A_B)
    as [Happ Hev]; [reflexivity|reflexivity|reflexivity|lia|vm_compute; reflexivity|].
  unfold gerar_txt_sample. cbn zeta. rewrite Happ, Hev. split; reflexivity.
Defined.

Lemma export_write_failure_witness :
  let w' := gerar_txt_sample (world_loaded "4" selection_A_B) "out.txt"
              (Some (Exception "Permission denied")) in
  last (events w') = Some (showerror "Erro"
    ("Falha ao salvar o arquivo:" ++ newline ++ "Permission denied")%string) ∧
  length (events w') = 5.
Proof.
  destruct (export_write_failure Lib.int newline Logic.limpar_espacos_em_colunas
              Logic.filtrar_primeira_coluna_por_tamanho Logic.remover_duplicatas
              (world_loaded "4" selection_A_B) "out.txt" (Exception "Permission denied")
              0 "A" ["B"] 4%Z frame_selected_A_B)
    as [_ Hev]; [reflexivity|reflexivity|reflexivity|lia|vm_compute; reflexivity|done|].
  unfold gerar_txt_sample. cbn zeta. rewrite Hev. split; reflexivity.
Defined.

Lemma export_twice_same_counters_witness :
  let w1 := gerar_txt_sample (world_loaded "4" selection_A_B) "out.txt" None in
  app (gerar_txt_sample w1 "" None) = app w1.
Proof.
  apply (export_twice_same_counters Lib.int newline Logic.limpar_espacos_em_colunas
           Logic.filtrar_primeira_coluna_por_tamanho Logic.remover_duplicatas
           (world_loaded "4" selection_A_B) "out.txt" "" None None).
  intros l [= <-]. cbn. lia.
Defined.

Lemma unsupported_extension_rejected_witness :
  let w := world_loaded "4" selection_A_B in
  selecionar_arquivo_sample read_csv_scenario_1 w "dados.json" =
    {| app := app w; store := store w;
       events := events w ++
         [showerror "Erro"
            ("Falha ao ler o arquivo:" ++ newline ++ "Tipo de arquivo não suportado.")%string] |}.
Proof.
  apply (unsupported_extension_rejected read_csv_scenario_1 read_excel_fails Lib.splitext Lib.lower
           (world_loaded "4" selection_A_B) "dados.json").
  - done.
  - apply (bool_decide_unpack _). vm_compute. exact I.
Defined.


(** The sample session ends with the first two columns written. *)
Example session_sample_file :
  let w := session_sample actions_sample in
  lb_get_all (listbox_colunas (app w)) = ["A"; "B"] ∧
  file_written "out.txt"
    (bom ++ "A;B" ++ newline ++ "12 34;x" ++ newline ++ "1234;y" ++ newline)%string
    ∈ events w.
Proof.
  split; [vm_compute; reflexivity|].
  vm_compute. do 5 right. left.
Qed.
